(** * RQL logic gate simulator: sweep engine, gap analysis and gate metrics

    A shallow embedding of [src/circuit_builder.py] (parameter validation),
    [src/simulator.py] (diagonalization wrapper, flux sweep, anharmonicity)
    and [src/utils.py] (anti-crossing gap, gate metrics).

    Conventions of the embedding:
    - a Python [float] / NumPy [float64] is a primitive binary64 float, so
      NaN, signed zeros and rounding are the machine's;
    - a Python [int] argument is a [Z];
    - a raised exception is the [Err] branch of [result]; only subclasses
      of Python's [Exception] are modelled, which is what every handler of
      the sources ([except Exception]) can see;
    - [print] and [logging] calls are left out, except where evaluating
      their argument can itself raise;
    - SQcircuit (the circuit object, its [update], [diag] and
      [set_trunc_nums]) is an external collaborator: it is the class
      [Provider], over a solver state the embedding never inspects. *)

From Stdlib Require Import ZArith List Bool Lia.
From Stdlib Require Import Floats Uint63.
From stdpp Require Import base option list gmap strings.

Local Open Scope Z_scope.

(** ** Floats *)

Abbreviation float := PrimFloat.float.

(** [np.isnan]: a NaN is the only float that differs from itself. *)
Definition is_nan (x : float) : bool := negb (PrimFloat.eqb x x).

(** ** Exceptions and results *)

(** The text of an error message, kept structured so that the values a
    message names can be read back. *)
Inductive message : Type :=
  | FluxOutOfRange (flux : float)
      (* "Flux must be between 0 and 1, got {flux}" *)
  | MustBePositive (name : string) (energy : float)
      (* "{name} must be positive, got {energy}" *)
  | CircuitIsNone
      (* "Circuit object is None" *)
  | InvalidFluxRange (lo hi : float)
      (* "Invalid flux range: {flux_range}" *)
  | NoFluxLoop
      (* "No flux loop found in circuit" *)
  | NegativeSamples (num : Z)
      (* numpy: "Number of samples, {num}, must be non-negative." *)
  | NegativeDimensions
      (* numpy: "negative dimensions are not allowed" *)
  | NeedLevels (n : Z)
      (* "Need at least {n} energy levels ..." *)
  | LevelNotAvailable (level max : Z)
      (* "Level {level} not available (max: {max})" *)
  | IndexOutOfBounds (index axis size : Z)
      (* numpy: "index {index} is out of bounds for axis {axis} with size {size}" *)
  | EmptyArgmin
      (* numpy: "attempt to get argmin of an empty sequence" *)
  | NoneHasNoAttribute (attr : string)
      (* "'NoneType' object has no attribute '{attr}'" *)
  | External (text : string).
      (* a message produced inside SQcircuit *)

Inductive exn : Type :=
  | ValueError (m : message)
  | TypeError (m : message)
  | IndexError (m : message)
  | AttributeError (m : message)
  | OtherError (class : string) (m : message)
      (* any other subclass of [Exception] *)
  | RuntimeError (prefix : string) (cause : exn).
      (* [raise RuntimeError(f"{prefix}: {e}") from e] *)

Inductive result (A : Type) : Type :=
  | Ok (a : A)
  | Err (e : exn).
Arguments Ok {A} a.
Arguments Err {A} e.

Definition is_value_error (e : exn) : bool :=
  match e with ValueError _ => true | _ => false end.

(** ** circuit_builder.py: parameter validation *)

(** [validate_flux(flux)]. The handler [except (TypeError, ValueError)]
    logs and re-raises, so the [ValueError] reaches the caller unchanged. *)
Definition validate_flux (flux : float) : result bool :=
  if negb ((0 <=? flux) && (flux <=? 1))%float
  then Err (ValueError (FluxOutOfRange flux))
  else Ok true.

(** [validate_energy(energy, name)]. A value above 1000 only logs a
    warning. *)
Definition validate_energy (energy : float) (name : string) : result bool :=
  if (energy <=? 0)%float
  then Err (ValueError (MustBePositive name energy))
  else Ok true.

(** ** The circuit, its flux loops and the external solver *)

(** A loop object ([sq.Loop]) is shared by reference between the elements
    that close it, so loops live in a store and elements hold their
    identifiers. *)
Abbreviation loop_id := nat (only parsing).

(** An element stored in [circuit.elements]: an instance of [sq.Loop]
    itself, or any other element together with its [loops] attribute
    ([None] when the element has no such attribute). *)
Inductive element : Type :=
  | LoopElem (l : loop_id)
  | Component (loops : option (list loop_id)).

(** [circuit.elements]: a dict from node pairs to element lists, in
    insertion order (the order [.values()] iterates in). *)
Record Circuit : Type := MkCircuit {
  elements : list ((Z * Z) * list element)
}.

Definition eigvecs := list (list float).

(** What the sweep engine needs from SQcircuit, over an opaque solver
    state [St]. Every operation may raise and may change the solver
    state; [update] and [diag] read the current loop values. *)
Class Provider (St : Type) : Type := {
  (* hasattr(circuit, 'trunc_nums') and circuit.trunc_nums is not None *)
  trunc_is_set : St -> bool;
  (* circuit.set_trunc_nums(nums) *)
  set_trunc_nums : list Z -> St -> result unit * St;
  (* circuit.update() *)
  update : gmap loop_id float -> St -> result unit * St;
  (* circuit.diag(n_eig=n) *)
  diag : Z -> gmap loop_id float -> St -> result (list float * eigvecs) * St
}.

(** The mutable state a call can touch: the [value] attribute of every
    loop and the solver's own state. *)
Record world (St : Type) : Type := World {
  loop_value : gmap loop_id float;
  solver : St
}.
Arguments World {St} _ _.
Arguments loop_value {St} _.
Arguments solver {St} _.

(** ** A state and exception monad for the Python control flow *)

Definition M (St A : Type) : Type := world St -> result A * world St.

Definition ret {St A} (a : A) : M St A := fun w => (Ok a, w).

Definition raise {St A} (e : exn) : M St A := fun w => (Err e, w).

Definition bind {St A B} (m : M St A) (k : A -> M St B) : M St B :=
  fun w => match m w with
           | (Ok a, w') => k a w'
           | (Err e, w') => (Err e, w')
           end.

(** [try: m except <classes>: h]: the handler runs in the state the body
    left behind, for the exceptions [catches] selects. *)
Definition try_except {St A} (m : M St A) (catches : exn -> bool)
    (h : exn -> M St A) : M St A :=
  fun w => match m w with
           | (Ok a, w') => (Ok a, w')
           | (Err e, w') => if catches e then h e w' else (Err e, w')
           end.

(** [except Exception] and the bare [except:] catch everything modelled. *)
Definition any_exception (e : exn) : bool := true.

Definition lift {St A} (r : result A) : M St A := fun w => (r, w).

Notation "x <- m ;; k" := (bind m (fun x => k))
  (at level 20, m at level 99, k at level 200, only parsing).
Notation "m ;;> k" := (bind m (fun _ => k))
  (at level 100, k at level 200, right associativity, only parsing).

(** ** The NumPy operations the sources call *)

(** A two-dimensional [float64] array: [shape = (length rows, ncols)].
    The column count is kept apart, as an array with no row still has
    one. *)
Record array2 : Type := Array2 {
  ncols : nat;
  rows : list (list float)
}.

Definition well_shaped (a : array2) : Prop :=
  Forall (fun row => length row = ncols a) (rows a).

(** An integer as a [float64], as [np.arange] stores it. *)
Definition float_of_Z (z : Z) : float := PrimFloat.of_uint63 (Uint63.of_Z z).

(** [y[-1] = stop] *)
Definition set_last (y : list float) (stop : float) : list float :=
  <[(length y - 1)%nat := stop]> y.

(** [np.linspace(start, stop, num)] with the default [endpoint=True],
    after NumPy's implementation: [arange(0, num) * step + start] with
    [step = (stop - start) / (num - 1)], the last sample overwritten
    with [stop] when there are at least two, and a negative [num]
    refused. *)
Definition linspace (start stop : float) (num : Z) : result (list float) :=
  if num <? 0 then Err (ValueError (NegativeSamples num))
  else
    let div := num - 1 in
    let delta := (stop - start)%float in
    let y := map (fun k => float_of_Z (Z.of_nat k)) (seq 0 (Z.to_nat num)) in
    let y :=
      if 0 <? div then
        let step := (delta / float_of_Z div)%float in
        if (step =? 0)%float
        then map (fun v => (v / float_of_Z div * delta)%float) y
        else map (fun v => (v * step)%float) y
      else map (fun v => (v * delta)%float) y in
    let y := map (fun v => (v + start)%float) y in
    Ok (if 1 <? num then set_last y stop else y).

(** [np.zeros((n_points, n_levels))] *)
Definition np_zeros (n_points n_levels : Z) : result array2 :=
  if (n_points <? 0) || (n_levels <? 0)
  then Err (ValueError NegativeDimensions)
  else Ok (Array2 (Z.to_nat n_levels)
             (replicate (Z.to_nat n_points)
                (replicate (Z.to_nat n_levels) 0%float))).

(** [a[i, :n] = src[:n]], for [n] within both lengths. *)
Definition store_prefix (a : array2) (i n : nat) (src : list float) : array2 :=
  Array2 (ncols a) (alter (fun row => take n src ++ drop n row) i (rows a)).

(** [a[i] = a[j]] *)
Definition copy_row (a : array2) (i j : nat) : array2 :=
  match rows a !! j with
  | Some row => Array2 (ncols a) (<[i := row]> (rows a))
  | None => a
  end.

(** [a[i] = v], the scalar broadcast over the row. *)
Definition fill_row (a : array2) (i : nat) (v : float) : array2 :=
  Array2 (ncols a) (<[i := replicate (ncols a) v]> (rows a)).

(** Sequencing of computations that may raise but touch no state. *)
Definition rbind {A B} (r : result A) (k : A -> result B) : result B :=
  match r with
  | Ok a => k a
  | Err e => Err e
  end.

Notation "x <~ r ;; k" := (rbind r (fun x => k))
  (at level 20, r at level 99, k at level 200, only parsing).

#[global] Instance float_inhabited : Inhabited float := populate 0%float.

(** [a[i]] on a one-dimensional array, for [i >= 0]. *)
Definition getitem (a : list float) (i : nat) : result float :=
  match a !! i with
  | Some x => Ok x
  | None =>
      Err (IndexError (IndexOutOfBounds (Z.of_nat i) 0 (Z.of_nat (length a))))
  end.

(** [a[:, k]]: a negative [k] counts from the last column, and an index
    outside [-ncols, ncols) raises [IndexError]. *)
Definition column (a : array2) (k : Z) : result (list float) :=
  let n := Z.of_nat (ncols a) in
  if (- n <=? k) && (k <? n) then
    let j := Z.to_nat (if k <? 0 then k + n else k) in
    Ok (map (fun row => row !!! j) (rows a))
  else Err (IndexError (IndexOutOfBounds k 1 n)).

(** The scan of [np.argmin] over [float64], after NumPy's loop: the
    running minimum [mp] is replaced when [not (x >= mp)], and the scan
    stops at the first NaN, which counts as minimal. *)
Fixpoint argmin_from (mp : float) (min_ind i : nat) (ip : list float) : nat :=
  match ip with
  | [] => min_ind
  | x :: rest =>
      if negb (mp <=? x)%float then
        if is_nan x then i else argmin_from x i (S i) rest
      else argmin_from mp min_ind (S i) rest
  end.

Definition np_argmin (a : list float) : result nat :=
  match a with
  | [] => Err (ValueError EmptyArgmin)
  | x :: rest => Ok (if is_nan x then 0%nat else argmin_from x 0 1 rest)
  end.

(** [ax.plot(x, y)]: matplotlib refuses arguments of different lengths. *)
Definition ax_plot (x y : list float) : result unit :=
  if (length x =? length y)%nat then Ok tt
  else Err (ValueError (External "x and y must have same first dimension")).

(** ** simulator.py: calculate_anharmonicity *)

(** The handler logs and re-raises, so errors reach the caller
    unchanged. *)
Definition calculate_anharmonicity (energies : list float) : result float :=
  if (length energies <? 3)%nat
  then Err (ValueError (NeedLevels 3))
  else
    E0 <~ getitem energies 0 ;;
    E1 <~ getitem energies 1 ;;
    E2 <~ getitem energies 2 ;;
    Ok ((E2 - E1) - (E1 - E0))%float.

(** ** simulator.py: compute_transition_frequencies *)

Definition compute_transition_frequencies (energies : list float)
    : result (list float) :=
  if (length energies <? 2)%nat
  then Err (ValueError (NeedLevels 2))
  else
    E0 <~ getitem energies 0 ;;
    Ok (map (fun e => (e - E0)%float) (drop 1 energies)).

(** ** utils.py: calculate_gate_metrics *)

(** A value of the metrics dict: a Python [float] or [None]. *)
Inductive pyval : Type :=
  | PyNone
  | PyFloat (x : float).

Definition calculate_gate_metrics (energies : list float)
    : result (gmap string pyval) :=
  if (length energies <? 2)%nat
  then Err (ValueError (NeedLevels 2))
  else
    ground <~ getitem energies 0 ;;
    first_excited <~
      (if (1 <? length energies)%nat
       then e1 <~ getitem energies 1 ;; Ok (PyFloat e1)
       else Ok PyNone) ;;
    transition <~
      (if (1 <? length energies)%nat
       then e1 <~ getitem energies 1 ;;
            e0 <~ getitem energies 0 ;;
            Ok (PyFloat (e1 - e0))
       else Ok PyNone) ;;
    let metrics : gmap string pyval :=
      <["transition_frequency" := transition]>
        (<["first_excited_energy" := first_excited]>
           (<["ground_state_energy" := PyFloat ground]> ∅)) in
    if (3 <=? length energies)%nat then
      e2 <~ getitem energies 2 ;;
      e1 <~ getitem energies 1 ;;
      e1' <~ getitem energies 1 ;;
      e0 <~ getitem energies 0 ;;
      Ok (<["anharmonicity" := PyFloat ((e2 - e1) - (e1' - e0))]> metrics)
    else Ok (<["anharmonicity" := PyNone]> metrics).

(** ** utils.py: plot_anti_crossing *)

(** What [plot_anti_crossing] computes for the figure: the minimum-gap
    marker [(min_gap, min_gap_flux, min_gap_idx)]. Drawing itself is
    matplotlib's; of it only the length check of [ax.plot] is kept. *)
Definition plot_anti_crossing (flux_values : list float)
    (energy_levels : array2) (level1 level2 : Z)
    : result (float * float * nat) :=
  if Z.of_nat (ncols energy_levels) <=? level2 then
    Err (ValueError
           (LevelNotAvailable level2 (Z.of_nat (ncols energy_levels) - 1)))
  else
    col1 <~ column energy_levels level1 ;;
    _u <~ ax_plot flux_values col1 ;;
    col2 <~ column energy_levels level2 ;;
    _u <~ ax_plot flux_values col2 ;;
    col2' <~ column energy_levels level2 ;;
    col1' <~ column energy_levels level1 ;;
    let gap := zip_with (fun e2 e1 => PrimFloat.abs (e2 - e1)) col2' col1' in
    min_gap_idx <~ np_argmin gap ;;
    min_gap <~ getitem gap min_gap_idx ;;
    min_gap_flux <~ getitem flux_values min_gap_idx ;;
    Ok (min_gap, min_gap_flux, min_gap_idx).

Section Engine.
Context {St : Type} {provider : Provider St}.

(** [loop.value = flux_val] *)
Definition set_loop_value (l : loop_id) (v : float) : M St unit :=
  fun w => (Ok tt, World (<[l := v]> (loop_value w)) (solver w)).

Definition call_trunc_is_set : M St bool :=
  fun w => (Ok (trunc_is_set (solver w)), w).

Definition call_set_trunc_nums (nums : list Z) : M St unit :=
  fun w => let '(r, s) := set_trunc_nums nums (solver w) in
           (r, World (loop_value w) s).

Definition call_update : M St unit :=
  fun w => let '(r, s) := update (loop_value w) (solver w) in
           (r, World (loop_value w) s).

Definition call_diag (n_eig : Z) : M St (list float * eigvecs) :=
  fun w => let '(r, s) := diag n_eig (loop_value w) (solver w) in
           (r, World (loop_value w) s).

(** ** simulator.py: diagonalize_hamiltonian *)

(** The truncation fallback: [[50]] first; on a [ValueError] only,
    [[50, 50]], whose every failure is swallowed. *)
Definition ensure_trunc_nums : M St unit :=
  set <- call_trunc_is_set ;;
  if set then ret tt
  else try_except (call_set_trunc_nums [50]) is_value_error
         (fun _ => try_except (call_set_trunc_nums [50; 50]) any_exception
                     (fun _ => ret tt)).

(** The body of the outer [try]. The success message formats
    [energies[0]], which raises [IndexError] on an empty result. *)
Definition diagonalize_body (circuit : option Circuit) (n_levels : Z)
    : M St (list float * eigvecs) :=
  match circuit with
  | None => raise (ValueError CircuitIsNone)
  | Some _ =>
      ensure_trunc_nums ;;>
      r <- call_diag n_levels ;;
      match fst r with
      | [] => raise (IndexError (IndexOutOfBounds 0 0 0))
      | _ :: _ => ret r
      end
  end.

Definition diagonalize_hamiltonian (circuit : option Circuit) (n_levels : Z)
    : M St (list float * eigvecs) :=
  try_except (diagonalize_body circuit n_levels) any_exception
    (fun e => raise (RuntimeError "Error diagonalizing Hamiltonian" e)).

(** ** simulator.py: flux_sweep *)

(** The chained comparison [0 <= flux_min < flux_max <= 1]. *)
Definition valid_flux_range (flux_min flux_max : float) : bool :=
  ((0 <=? flux_min) && (flux_min <? flux_max) && (flux_max <=? 1))%float.

(** The inner [for elem in element_list] of the first search: the first
    element that is an instance of [sq.Loop]. *)
Fixpoint first_loop_instance (element_list : list element) : option loop_id :=
  match element_list with
  | [] => None
  | LoopElem l :: _ => Some l
  | Component _ :: rest => first_loop_instance rest
  end.

(** The inner loop of the second search: the first element with a
    non-empty [loops] attribute gives [elem.loops[0]]. *)
Fixpoint first_attached_loop (elem_list : list element) : option loop_id :=
  match elem_list with
  | [] => None
  | Component (Some (l :: _)) :: _ => Some l
  | _ :: rest => first_attached_loop rest
  end.

(** The outer loops over [circuit.elements.values()], which stop at the
    first list with a hit. *)
Fixpoint search_values (inner : list element -> option loop_id)
    (values : list (list element)) : option loop_id :=
  match values with
  | [] => None
  | element_list :: rest =>
      match inner element_list with
      | Some l => Some l
      | None => search_values inner rest
      end
  end.

Definition find_loop (circuit : Circuit) : option loop_id :=
  let values := map snd (elements circuit) in
  match search_values first_loop_instance values with
  | Some l => Some l
  | None => search_values first_attached_loop values
  end.

(** One iteration of the sweep loop, for sample [i] of value [flux_val]:
    the [try] body and its [except Exception] recovery. The table is
    written only by the last statement of the body or by the handler. *)
Definition sweep_try (circuit : Circuit) (loop : loop_id) (n_levels : Z)
    (energy_levels : array2) (i : nat) (flux_val : float) : M St array2 :=
  set_loop_value loop flux_val ;;>
  call_update ;;>
  r <- diagonalize_hamiltonian (Some circuit) n_levels ;;
  let energies := fst r in
  let n_store := Z.to_nat (Z.min n_levels (Z.of_nat (length energies))) in
  ret (store_prefix energy_levels i n_store energies).

Definition sweep_recover (energy_levels : array2) (i : nat) : array2 :=
  if (0 <? i)%nat then copy_row energy_levels i (i - 1)
  else fill_row energy_levels i PrimFloat.nan.

Definition sweep_point (circuit : Circuit) (loop : loop_id) (n_levels : Z)
    (energy_levels : array2) (i : nat) (flux_val : float) : M St array2 :=
  try_except (sweep_try circuit loop n_levels energy_levels i flux_val)
    any_exception
    (fun _ => ret (sweep_recover energy_levels i)).

(** [for i, flux_val in enumerate(flux_values)], from index [i] on. *)
Fixpoint sweep_loop (circuit : Circuit) (loop : loop_id) (n_levels : Z)
    (energy_levels : array2) (i : nat) (flux_values : list float)
    : M St array2 :=
  match flux_values with
  | [] => ret energy_levels
  | flux_val :: rest =>
      energy_levels' <-
        sweep_point circuit loop n_levels energy_levels i flux_val ;;
      sweep_loop circuit loop n_levels energy_levels' (S i) rest
  end.

(** The body of the outer [try] of [flux_sweep]. *)
Definition flux_sweep_body (circuit : option Circuit)
    (flux_range : option (float * float)) (n_points n_levels : Z)
    : M St (list float * array2) :=
  let '(flux_min, flux_max) := default (0%float, 1%float) flux_range in
  if negb (valid_flux_range flux_min flux_max)
  then raise (ValueError (InvalidFluxRange flux_min flux_max))
  else
    flux_values <- lift (linspace flux_min flux_max n_points) ;;
    energy_levels <- lift (np_zeros n_points n_levels) ;;
    match circuit with
    | None => raise (AttributeError (NoneHasNoAttribute "elements"))
    | Some c =>
        match find_loop c with
        | None => raise (ValueError NoFluxLoop)
        | Some loop =>
            energy_levels' <-
              sweep_loop c loop n_levels energy_levels 0 flux_values ;;
            ret (flux_values, energy_levels')
        end
    end.

Definition flux_sweep (circuit : option Circuit)
    (flux_range : option (float * float)) (n_points n_levels : Z)
    : M St (list float * array2) :=
  try_except (flux_sweep_body circuit flux_range n_points n_levels)
    any_exception
    (fun e => raise (RuntimeError "Error during flux sweep" e)).

End Engine.

(** ** A scripted solver, to run the engine on concrete inputs *)

Module Demo.

(** The solver state counts the calls of [diag]; call number [k] fails
    when [k] is listed in [failing], and otherwise returns the levels
    [flux, flux + 1, flux + 3, flux + 6], cut to [n_eig], for the flux of
    loop [0]. *)
Definition spectrum (flux : float) : list float :=
  [flux; flux + 1; flux + 3; flux + 6]%float.

Definition scripted (failing : list nat) : Provider nat := {|
  trunc_is_set := fun _ => true;
  set_trunc_nums := fun _ s => (Ok tt, s);
  update := fun _ s => (Ok tt, s);
  diag := fun n_eig values s =>
    if bool_decide (s ∈ failing)
    then (Err (OtherError "ArpackNoConvergence" (External "no convergence")),
          Datatypes.S s)
    else (Ok (take (Z.to_nat n_eig) (spectrum (values !!! 0%nat)), []),
          Datatypes.S s)
|}.

(** The inverter of [build_rql_inverter]: a junction closing loop [0]
    and a capacitor, both between nodes 0 and 1. *)
Definition inverter : Circuit :=
  MkCircuit [((0, 1), [Component (Some [0%nat]); Component None])].

(** The loop as the builder leaves it, biased at half a flux quantum. *)
Definition initial : world nat := World {[ 0%nat := 0.5%float ]} 0%nat.

End Demo.

(** ** circuit_builder.py: the three builders *)

(** An element as a builder makes it, with the arguments it gives to
    SQcircuit: the value, the loops it closes and the [unit] keyword
    ([None] when the keyword is left out). *)
Inductive part : Type :=
  | Junction (value : float) (loops : list loop_id) (unit : option string)
  | Capacitor (value : float) (unit : option string)
  | Inductor (value : float) (loops : list loop_id) (unit : option string).

(** What the sweep sees of a part: junctions and inductors carry a
    [loops] attribute, capacitors do not. *)
Definition element_of_part (p : part) : element :=
  match p with
  | Junction _ loops _ => Component (Some loops)
  | Capacitor _ _ => Component None
  | Inductor _ loops _ => Component (Some loops)
  end.

Definition circuit_of_parts (parts : list ((Z * Z) * list part)) : Circuit :=
  MkCircuit (map (fun kv => (kv.1, map element_of_part kv.2)) parts).

(** What the builders need from SQcircuit beyond [Provider]: whether a
    constructor raises on given arguments, the state of a new
    [sq.Circuit] and of its loops, and [set_charge_offset]. What the
    [value] attribute of a loop made by [sq.Loop(value=v)] holds is the
    library's affair, so the world of a new circuit comes from here. *)
Class Factory (St : Type) : Type := {
  (* sq.Junction, sq.Capacitor, sq.Inductor: the exception raised, if any *)
  part_error : part -> option exn;
  (* sq.Circuit(elements), over loops 0, 1, ... made by sq.Loop(value=v)
     for the values given: the new circuit with its loops *)
  new_circuit :
    list ((Z * Z) * list part) -> list float -> result (world St);
  (* cr.set_charge_offset(offsets) *)
  set_charge_offset : list float -> St -> result unit * St
}.

Definition is_type_error (e : exn) : bool :=
  match e with TypeError _ => true | _ => false end.

(** [try: r except <classes>: h] for computations without state. *)
Definition rtry {A} (r : result A) (catches : exn -> bool)
    (h : exn -> result A) : result A :=
  match r with
  | Ok a => Ok a
  | Err e => if catches e then h e else Err e
  end.

(** Python's [a / b] on floats, which raises on a zero divisor. *)
Definition py_div (a b : float) : result float :=
  if (b =? 0)%float
  then Err (OtherError "ZeroDivisionError" (External "float division by zero"))
  else Ok (a / b)%float.

Section Builders.
Context {St : Type} {provider : Provider St} {factory : Factory St}.

(** A call of a constructor: the part, or the exception. *)
Definition construct (p : part) : result part :=
  match part_error p with
  | Some e => Err e
  | None => Ok p
  end.

(** A call of a method of the circuit under construction. *)
Definition method (call : St -> result unit * St) (cr : world St)
    : result (world St) :=
  match call (solver cr) with
  | (Ok _, s') => Ok (World (loop_value cr) s')
  | (Err e, _) => Err e
  end.

(** [build_rql_inverter(Ej, Ec, flux, ng)]: the circuit, with the
    element dictionary it was made from, and the world it lives in. The
    one loop is number 0. The outer handler logs and re-raises. *)
Definition build_rql_inverter (Ej Ec flux ng : float)
    : result (Circuit * world St) :=
  _u <~ validate_energy Ej "Ej" ;;
  _u <~ validate_energy Ec "Ec" ;;
  _u <~ validate_flux flux ;;
  let loop1 := 0%nat in
  parts <~ rtry
    (JJ <~ construct (Junction Ej [loop1] (Some "GHz")) ;;
     c <~ py_div 1 (2 * Ec) ;;
     C <~ construct (Capacitor c (Some "GHz")) ;;
     Ok [JJ; C])
    is_type_error
    (fun _ =>
     JJ <~ construct (Junction Ej [loop1] None) ;;
     c <~ py_div 1 (2 * Ec) ;;
     C <~ construct (Capacitor c None) ;;
     Ok [JJ; C]) ;;
  let elements := [((0, 1), parts)] in
  cr <~ rtry
    (cr <~ new_circuit elements [flux] ;;
     method (set_trunc_nums [50]) cr)
    is_value_error
    (fun _ => Err (ValueError (External
       "Circuit topology may need adjustment for SQcircuit version."))) ;;
  cr <~ (if negb (ng =? 0)%float
         then cr <~ method (set_trunc_nums [50]) cr ;;
              method (set_charge_offset [ng]) cr
         else Ok cr) ;;
  Ok (circuit_of_parts elements, cr).

(** [build_anb_gate(Ej1, Ej2, Ec, J, flux1, flux2)]: loops 0 and 1. *)
Definition build_anb_gate (Ej1 Ej2 Ec J flux1 flux2 : float)
    : result (Circuit * world St) :=
  _u <~ validate_energy Ej1 "Ej1" ;;
  _u <~ validate_energy Ej2 "Ej2" ;;
  _u <~ validate_energy Ec "Ec" ;;
  _u <~ validate_flux flux1 ;;
  _u <~ validate_flux flux2 ;;
  let loop1 := 0%nat in
  let loop2 := 1%nat in
  JJ1 <~ construct (Junction Ej1 [loop1] (Some "GHz")) ;;
  JJ2 <~ construct (Junction Ej2 [loop2] (Some "GHz")) ;;
  JJ_coupling <~ construct (Junction J [loop1; loop2] (Some "GHz")) ;;
  c1 <~ py_div 1 (2 * Ec) ;;
  C1 <~ construct (Capacitor c1 (Some "GHz")) ;;
  c2 <~ py_div 1 (2 * Ec) ;;
  C2 <~ construct (Capacitor c2 (Some "GHz")) ;;
  let elements :=
    [((0, 1), [JJ1; C1]); ((0, 2), [JJ2; C2]); ((1, 2), [JJ_coupling])] in
  cr <~ new_circuit elements [flux1; flux2] ;;
  cr <~ method (set_trunc_nums [50; 50]) cr ;;
  Ok (circuit_of_parts elements, cr).

(** [build_rql_loop(Ej, Ec, El, flux)]: one loop, number 0. *)
Definition build_rql_loop (Ej Ec El flux : float)
    : result (Circuit * world St) :=
  _u <~ validate_energy Ej "Ej" ;;
  _u <~ validate_energy Ec "Ec" ;;
  _u <~ validate_energy El "El" ;;
  _u <~ validate_flux flux ;;
  let loop := 0%nat in
  JJ <~ construct (Junction Ej [loop] (Some "GHz")) ;;
  c <~ py_div 1 (2 * Ec) ;;
  C <~ construct (Capacitor c (Some "GHz")) ;;
  l <~ py_div 1 El ;;
  L <~ construct (Inductor l [loop] (Some "GHz")) ;;
  let elements := [((0, 1), [JJ; C; L])] in
  cr <~ new_circuit elements [flux] ;;
  cr <~ method (set_trunc_nums [50]) cr ;;
  Ok (circuit_of_parts elements, cr).

End Builders.

(** ** simulator.py: calculate_coupling_strength *)

(** Python's [min(a, b)] on floats: [b] when [b < a], else [a]. *)
Definition py_min (a b : float) : float :=
  if (b <? a)%float then b else a.

(** The function takes two circuit objects, which may be one and the
    same: circuit objects live in a store, each with its loop values and
    its solver state. *)
Definition objects (St : Type) : Type := nat -> world St.

Section Coupling.
Context {St : Type} {provider : Provider St}.

(** A computation on the object [r] of the store. *)
Definition on_object {A} (r : nat) (m : M St A)
    : objects St -> result A * objects St :=
  fun h =>
    let '(x, w') := m (h r) in
    (x, fun r' => if decide (r' = r) then w' else h r').

(** [diagonalize_hamiltonian(circuit, n_levels)] on an argument that is
    an object of the store or [None]. *)
Definition diagonalize_object (circuit : option (nat * Circuit)) (n_levels : Z)
    : objects St -> result (list float * eigvecs) * objects St :=
  match circuit with
  | Some (r, c) => on_object r (diagonalize_hamiltonian (Some c) n_levels)
  | None =>
      fun h =>
        (Err (RuntimeError "Error diagonalizing Hamiltonian"
                (ValueError CircuitIsNone)), h)
  end.

(** [calculate_coupling_strength(circuit1, circuit2, coupling_element)].
    The handler logs and re-raises; [coupling_element] is never read. *)
Definition calculate_coupling_strength (circuit1 circuit2 : option (nat * Circuit))
    (coupling_element : option part)
    : objects St -> result float * objects St :=
  fun h =>
    match diagonalize_object circuit1 2 h with
    | (Err e, h1) => (Err e, h1)
    | (Ok (E1, _), h1) =>
        match diagonalize_object circuit2 2 h1 with
        | (Err e, h2) => (Err e, h2)
        | (Ok (E2, _), h2) =>
            (e1 <~ getitem E1 0 ;;
             e2 <~ getitem E2 0 ;;
             Ok (0x1.999999999999ap-4 (* 0.1 *)
                 * py_min (PrimFloat.abs (e1 - e2)) 1)%float, h2)
        end
    end.

End Coupling.

(** ** utils.py: plot_flux_sweep and plot_energy_spectrum *)

(** A line handed to [ax.plot]: its coordinates, the level its label
    names where the call gives one, and its position on the viridis map
    where the call colours it. Saving the figure is left out. *)
Record line : Type := Line {
  line_x : list float;
  line_y : list float;
  line_level : option nat;
  line_colour : option float
}.

(** [for i in range(...): ax.plot(flux_values, energy_levels[:, i], ...)],
    the arguments evaluated from left to right. *)
Fixpoint plot_levels (flux_values : list float) (energy_levels : array2)
    (colors : option (list float)) (levels : list nat)
    : result (list line) :=
  match levels with
  | [] => Ok []
  | i :: rest =>
      y <~ column energy_levels (Z.of_nat i) ;;
      colour <~ match colors with
                | Some cs => c <~ getitem cs i ;; Ok (Some c)
                | None => Ok None
                end ;;
      _u <~ ax_plot flux_values y ;;
      lines <~ plot_levels flux_values energy_levels colors rest ;;
      Ok (Line flux_values y (Some i) colour :: lines)
  end.

(** [plot_flux_sweep(flux_values, energy_levels)], up to the end of its
    loop (lines 174 to 179): the lines handed to [ax.plot], or the
    exception of the first [ax.plot] that refuses its arguments. The
    figure-level calls that follow the loop ([ax.legend],
    [plt.tight_layout], [plt.savefig]) are matplotlib's and can raise on
    their own: [Ok] says that the loop got through, not that the call
    returns. The handler logs and re-raises. *)
Definition plot_flux_sweep (flux_values : list float)
    (energy_levels : array2) : result (list line) :=
  let n_levels := ncols energy_levels in
  colors <~ linspace 0 1 (Z.of_nat n_levels) ;;
  plot_levels flux_values energy_levels (Some colors) (seq 0 n_levels).

(** What [np.array(energies)] can be here: an array of no, one or two
    dimensions. *)
Inductive ndarray : Type :=
  | ZeroD (x : float)
  | OneD (a : list float)
  | TwoD (a : array2).

(** [np.arange(n)] *)
Definition np_arange (n : nat) : list float :=
  map (fun k => float_of_Z (Z.of_nat k)) (seq 0 n).

(** [plot_energy_spectrum(energies, flux_values)]: the lines drawn. With
    one dimension the levels are drawn against their numbers, with two
    the first five levels against the flux; otherwise nothing is drawn
    and the empty figure is returned. *)
Definition plot_energy_spectrum (energies : ndarray)
    (flux_values : option (list float)) : result (list line) :=
  match energies with
  | OneD a =>
      let x := np_arange (length a) in
      _u <~ ax_plot x a ;;
      Ok [Line x a None None]
  | TwoD a =>
      let flux_values := default (np_arange (length (rows a))) flux_values in
      plot_levels flux_values a None (seq 0 (Nat.min 5 (ncols a)))
  | ZeroD _ => Ok []
  end.

(** ** utils.py: validate_parameters *)

(** [key.lower()], on the bytes of the key: the letters A to Z move,
    every other byte stays. *)
Definition lower_ascii (c : Ascii.ascii) : Ascii.ascii :=
  let n := Ascii.nat_of_ascii c in
  if (65 <=? n)%nat && (n <=? 90)%nat then Ascii.ascii_of_nat (n + 32) else c.

Fixpoint lower (s : string) : string :=
  match s with
  | String.EmptyString => String.EmptyString
  | String.String c rest => String.String (lower_ascii c) (lower rest)
  end.

(** [needle in s] on strings. *)
Fixpoint contains (needle s : string) : bool :=
  String.prefix needle s ||
  match s with
  | String.EmptyString => false
  | String.String _ rest => contains needle rest
  end.

(** What [validate_parameters] raises: a [ValueError] with one of four
    messages, or the [KeyError] of [params[key]]. *)
Inductive parameter_error : Type :=
  | MissingParameters (missing_keys : list string)
      (* "Missing required parameters: {missing_keys}" *)
  | CannotBeNone (key : string)
      (* "Parameter {key} cannot be None" *)
  | NotBetween0And1 (key : string) (value : float)
      (* "{key} must be between 0 and 1, got {value}" *)
  | NotPositive (key : string) (value : float)
      (* "{key} must be positive, got {value}" *)
  | KeyError (key : string).

(** The body of the loop for one key and its value. *)
Definition validate_value (key : string) (value : pyval)
    : option parameter_error :=
  match value with
  | PyNone => Some (CannotBeNone key)
  | PyFloat x =>
      if contains "flux" (lower key) then
        if negb ((0 <=? x) && (x <=? 1))%float
        then Some (NotBetween0And1 key x)
        else None
      else if contains "energy" (lower key) || contains "ej" (lower key)
              || contains "ec" (lower key) then
        if (x <=? 0)%float then Some (NotPositive key x) else None
      else None
  end.

(** [for key in required_keys: ...] followed by [return True]. *)
Fixpoint validate_each (params : gmap string pyval) (keys : list string)
    : parameter_error + bool :=
  match keys with
  | [] => inr true
  | key :: rest =>
      match params !! key with
      | None => inl (KeyError key)
      | Some value =>
          match validate_value key value with
          | Some e => inl e
          | None => validate_each params rest
          end
      end
  end.

(** [validate_parameters(params, required_keys)], for parameters that
    are floats or [None]. The handler logs and re-raises. *)
Definition validate_parameters (params : gmap string pyval)
    (required_keys : list string) : parameter_error + bool :=
  let missing_keys :=
    List.filter (fun key => bool_decide (params !! key = None)) required_keys in
  match missing_keys with
  | [] => validate_each params required_keys
  | _ :: _ => inl (MissingParameters missing_keys)
  end.

(** ** main.py and app.py: the metrics shown *)

(** The truth value of a metric under [if metrics[...]:]: [None] and
    zero are false, every other float is true, NaN included. *)
Definition truthy (v : pyval) : bool :=
  match v with
  | PyNone => false
  | PyFloat x => negb (x =? 0)%float
  end.

(** [metrics[key]] *)
Definition metric (metrics : gmap string pyval) (key : string) : result pyval :=
  match metrics !! key with
  | Some v => Ok v
  | None => Err (OtherError "KeyError" (External key))
  end.

(** [f"{v:.4f}"], of which the number formatted is kept. *)
Definition format_metric (v : pyval) : result float :=
  match v with
  | PyFloat x => Ok x
  | PyNone =>
      Err (TypeError
             (External "unsupported format string passed to NoneType.__format__"))
  end.

(** A line of the metrics both front ends show. *)
Inductive shown : Type :=
  | GroundStateEnergy (x : float)
  | TransitionFrequency (x : float)
  | Anharmonicity (x : float).

(** The metrics block of [main.py] (printed) and of [app.py] (as
    [st.metric]): the ground state energy always, the other two under
    their [if]. An exception ends the run in [main.py] and becomes an
    error box in [app.py]. *)
Definition show_metrics (energies : list float) : result (list shown) :=
  metrics <~ calculate_gate_metrics energies ;;
  g <~ metric metrics "ground_state_energy" ;;
  g <~ format_metric g ;;
  t <~ metric metrics "transition_frequency" ;;
  shown_t <~ (if truthy t
              then t <~ metric metrics "transition_frequency" ;;
                   t <~ format_metric t ;;
                   Ok [TransitionFrequency t]
              else Ok []) ;;
  a <~ metric metrics "anharmonicity" ;;
  shown_a <~ (if truthy a
              then a <~ metric metrics "anharmonicity" ;;
                   a <~ format_metric a ;;
                   Ok [Anharmonicity a]
              else Ok []) ;;
  Ok (GroundStateEnergy g :: shown_t ++ shown_a).

(** ** Further circuits and solvers to run the code on *)

Module Scenarios.

(** A circuit with a capacitor only: no loop anywhere. *)
Definition capacitor_only : Circuit :=
  MkCircuit [((0, 1), [Component None])].

(** A solver with no truncation configured, whose [set_trunc_nums([50])]
    raises [first] and whose every other [set_trunc_nums] raises a
    [ValueError]; the state counts the calls of [set_trunc_nums]. *)
Definition untruncated (first : exn) : Provider nat := {|
  trunc_is_set := fun _ => false;
  set_trunc_nums := fun nums s =>
    if bool_decide (nums = [50])
    then (Err first, Datatypes.S s)
    else (Err (ValueError (External "wrong number of modes")), Datatypes.S s);
  update := fun _ s => (Ok tt, s);
  diag := fun n_eig values s =>
    (Ok (take (Z.to_nat n_eig) (Demo.spectrum (values !!! 0%nat)), []), s)
|}.

(** An SQcircuit that accepts every constructor call, and whose loops
    hold the value they were made with. *)
Definition permissive : Factory nat := {|
  part_error := fun _ => None;
  new_circuit := fun _ values =>
    Ok (World (list_to_map (zip (seq 0 (length values)) values)) 0%nat);
  set_charge_offset := fun _ s => (Ok tt, s)
|}.

(** A table of two flux points and six levels. *)
Definition six_levels : array2 :=
  Array2 6 [[0; 1; 2; 3; 4; 5]%float; [0.5; 1.5; 2.5; 3.5; 4.5; 5.5]%float].

(** Two circuit objects, each with one loop: object 0 biased at a
    quarter of a flux quantum, every other object at three quarters. *)
Definition two_inverters : objects nat :=
  fun r => World {[ 0%nat := if decide (r = 0%nat) then 0.25%float else 0.75%float ]}
             0%nat.

End Scenarios.

(** * Vocabulary of the statements *)

(** ** The order of binary64 floats

    [<=?] and [<?] are specified through [SFcompare]; away from NaN that
    is the lexicographic order of a sign class, an exponent and a
    mantissa, which makes the comparisons a total preorder. *)

Definition sf_key (x : spec_float) : Z * Z * Z :=
  match x with
  | S754_zero _ => (0, 0, 0)
  | S754_infinity false => (2, 0, 0)
  | S754_infinity true => (-2, 0, 0)
  | S754_nan => (0, 0, 0)
  | S754_finite false m e => (1, e, Zpos m)
  | S754_finite true m e => (-1, - e, Zneg m)
  end.

Definition lex_compare (a b : Z * Z * Z) : comparison :=
  match a, b with
  | (a1, a2, a3), (b1, b2, b3) =>
      match a1 ?= b1 with
      | Lt => Lt
      | Gt => Gt
      | Eq => match a2 ?= b2 with
              | Lt => Lt
              | Gt => Gt
              | Eq => a3 ?= b3
              end
      end
  end.

Definition sf_is_nan (x : spec_float) : bool :=
  match x with S754_nan => true | _ => false end.

Definition lex_lt (a b : Z * Z * Z) : Prop :=
  a.1.1 < b.1.1 \/
  (a.1.1 = b.1.1 /\ (a.1.2 < b.1.2 \/ (a.1.2 = b.1.2 /\ a.2 < b.2))).

Definition float_key (x : float) : Z * Z * Z := sf_key (Prim2SF x).

(** ** Minima of a sequence of floats *)

Definition no_nan (g : list float) : Prop :=
  Forall (fun x => is_nan x = false) g.

(** [m], at index [k] of [g], is a minimum of [g] and no earlier entry
    attains it. *)
Definition first_minimum (g : list float) (k : nat) (m : float) : Prop :=
  g !! k = Some m /\
  (forall j x, g !! j = Some x -> (m <=? x)%float = true) /\
  (forall j x, (j < k)%nat -> g !! j = Some x -> (m <? x)%float = true).

#[local] Instance no_nan_dec g : Decision (no_nan g).
Proof. unfold no_nan. apply _. Defined.

(** ** Sweep tables *)

(** The sequence [|E_b(p) - E_a(p)|] over the sweep points [p]. *)
Definition gap_sequence (energy_levels : array2) (a b : nat) : list float :=
  map (fun row => PrimFloat.abs (row !!! b - row !!! a)) (rows energy_levels).

(** The shape [np.zeros((n_points, n_levels))] gives the table. *)
Definition has_shape (n_rows : nat) (n_levels : Z) (t : array2) : Prop :=
  ncols t = Z.to_nat n_levels /\ length (rows t) = n_rows /\ well_shaped t.

(** A computation that leaves every loop value as it found it. *)
Definition frames {St A} (m : M St A) : Prop :=
  forall w, loop_value (m w).2 = loop_value w.

(** ** Loops of a circuit *)

(** The loops an element gives access to: itself when it is a loop, or
    its [loops] attribute. *)
Definition loops_of_element (e : element) : list loop_id :=
  match e with
  | LoopElem l => [l]
  | Component (Some loops) => loops
  | Component None => []
  end.

(** ** Checks made in sequence *)

(** The exception of the first check that raises, if any. *)
Fixpoint first_failure (checks : list (result bool)) : option exn :=
  match checks with
  | [] => None
  | Ok _ :: rest => first_failure rest
  | Err e :: _ => Some e
  end.

(** The line [ax.plot] gets for level [i] of a table. *)
Definition level_line (flux_values : list float) (energy_levels : array2)
    (colour : nat -> option float) (i : nat) : line :=
  Line flux_values (map (fun row => row !!! i) (rows energy_levels))
    (Some i) (colour i).

Definition colour_of (colors : option (list float)) (i : nat) : option float :=
  match colors with
  | Some cs => Some (cs !!! i)
  | None => None
  end.

(** ** Parameter names *)

Definition is_flux_key (key : string) : bool := contains "flux" (lower key).

Definition is_energy_key (key : string) : bool :=
  contains "energy" (lower key) || contains "ej" (lower key)
  || contains "ec" (lower key).

(** What [validate_parameters] asks of a required key: a float, within
    [0, 1] under a flux name, not at most zero under an energy name that
    is not a flux name. NaN is not within [0, 1], and is not at most
    zero. *)
Definition acceptable (params : gmap string pyval) (key : string) : Prop :=
  exists x, params !! key = Some (PyFloat x) /\
    (is_flux_key key = true ->
     (0 <=? x)%float = true /\ (x <=? 1)%float = true) /\
    (is_flux_key key = false -> is_energy_key key = true ->
     (x <=? 0)%float = false).

(** * Properties *)

(** ** The order of binary64 floats *)

Lemma SFcompare_lex x y :
  sf_is_nan x = false -> sf_is_nan y = false ->
  SFcompare x y = Some (lex_compare (sf_key x) (sf_key y)).
Proof.
  destruct x as [sx|sx| |sx mx ex], y as [sy|sy| |sy my ey];
    try discriminate; intros _ _;
    try (destruct sx); try (destruct sy); try reflexivity.
  - cbn [SFcompare sf_key lex_compare]. change (-1 ?= -1) with Eq. cbn match.
    rewrite Z.compare_opp, (Z.compare_antisym ex ey).
    change (Z.neg mx ?= Z.neg my) with (CompOpp (mx ?= my)%positive).
    destruct (ex ?= ey); reflexivity.
Qed.

Lemma lex_compare_spec a b :
  CompareSpec (a = b) (lex_lt a b) (lex_lt b a) (lex_compare a b).
Proof.
  destruct a as [[a1 a2] a3], b as [[b1 b2] b3]. unfold lex_lt, lex_compare.
  cbn [fst snd].
  destruct (Z.compare_spec a1 b1); [|constructor; lia..].
  destruct (Z.compare_spec a2 b2); [|constructor; lia..].
  destruct (Z.compare_spec a3 b3); constructor; [congruence|lia..].
Qed.

Lemma is_nan_sf x : is_nan x = sf_is_nan (Prim2SF x).
Proof.
  unfold is_nan. rewrite FloatAxioms.eqb_spec. unfold SFeqb.
  destruct (Prim2SF x) as [s|s| |s m e] eqn:E; try reflexivity.
  - destruct s; reflexivity.
  - cbn. destruct s; rewrite Z.compare_refl;
      change (Pos.compare_cont Eq m m) with (m ?= m)%positive;
      rewrite Pos.compare_refl; reflexivity.
Qed.

Lemma leb_key x y :
  is_nan x = false -> is_nan y = false ->
  (x <=? y)%float = true <-> ~ lex_lt (float_key y) (float_key x).
Proof.
  rewrite !is_nan_sf, FloatAxioms.leb_spec. intros Hx Hy. unfold SFleb, float_key.
  rewrite (SFcompare_lex _ _ Hx Hy).
  destruct (lex_compare_spec (sf_key (Prim2SF x)) (sf_key (Prim2SF y)))
    as [E|E|E]; unfold lex_lt in *.
  - rewrite E. split; [lia|reflexivity].
  - split; [lia|reflexivity].
  - split; [discriminate|tauto].
Qed.

Lemma ltb_key x y :
  is_nan x = false -> is_nan y = false ->
  (x <? y)%float = true <-> lex_lt (float_key x) (float_key y).
Proof.
  rewrite !is_nan_sf, FloatAxioms.ltb_spec. intros Hx Hy. unfold SFltb, float_key.
  rewrite (SFcompare_lex _ _ Hx Hy).
  destruct (lex_compare_spec (sf_key (Prim2SF x)) (sf_key (Prim2SF y)))
    as [E|E|E]; unfold lex_lt in *.
  - rewrite E. split; [discriminate|lia].
  - tauto.
  - split; [discriminate|lia].
Qed.

(** A comparison that holds has no NaN on either side. *)
Lemma leb_not_nan x y :
  (x <=? y)%float = true -> is_nan x = false /\ is_nan y = false.
Proof.
  rewrite !is_nan_sf, FloatAxioms.leb_spec. unfold SFleb.
  destruct (Prim2SF x), (Prim2SF y); cbn; try discriminate; auto.
Qed.

Lemma ltb_not_nan x y :
  (x <? y)%float = true -> is_nan x = false /\ is_nan y = false.
Proof.
  rewrite !is_nan_sf, FloatAxioms.ltb_spec. unfold SFltb.
  destruct (Prim2SF x), (Prim2SF y); cbn; try discriminate; auto.
Qed.

Lemma leb_refl x : is_nan x = false -> (x <=? x)%float = true.
Proof. intros Hx. apply leb_key; auto. unfold lex_lt. lia. Qed.

Lemma leb_total x y :
  is_nan x = false -> is_nan y = false ->
  (x <=? y)%float = false -> (y <? x)%float = true.
Proof.
  intros Hx Hy Hle. apply ltb_key; auto.
  destruct (lex_compare_spec (float_key y) (float_key x)) as [E|E|E]; auto.
  - exfalso. apply not_true_iff_false in Hle. apply Hle, leb_key; auto.
    rewrite E. unfold lex_lt. lia.
  - exfalso. apply not_true_iff_false in Hle. apply Hle, leb_key; auto.
    unfold lex_lt in *. lia.
Qed.

Lemma leb_trans x y z :
  (x <=? y)%float = true -> (y <=? z)%float = true -> (x <=? z)%float = true.
Proof.
  intros Hxy Hyz.
  destruct (leb_not_nan _ _ Hxy) as [Hx Hy], (leb_not_nan _ _ Hyz) as [_ Hz].
  apply leb_key in Hxy, Hyz; auto. apply leb_key; auto.
  unfold lex_lt in *. lia.
Qed.

Lemma ltb_leb x y : (x <? y)%float = true -> (x <=? y)%float = true.
Proof.
  intros Hxy. destruct (ltb_not_nan _ _ Hxy) as [Hx Hy].
  apply ltb_key in Hxy; auto. apply leb_key; auto. unfold lex_lt in *. lia.
Qed.

Lemma ltb_leb_trans x y z :
  (x <? y)%float = true -> (y <=? z)%float = true -> (x <? z)%float = true.
Proof.
  intros Hxy Hyz.
  destruct (ltb_not_nan _ _ Hxy) as [Hx Hy], (leb_not_nan _ _ Hyz) as [_ Hz].
  apply ltb_key in Hxy; auto. apply leb_key in Hyz; auto. apply ltb_key; auto.
  unfold lex_lt in *. lia.
Qed.

Lemma ltb_not_leb x y : (x <? y)%float = true -> (y <=? x)%float = false.
Proof.
  intros Hxy. destruct (ltb_not_nan _ _ Hxy) as [Hx Hy].
  apply ltb_key in Hxy; auto. apply not_true_iff_false. intros Hyx.
  apply leb_key in Hyx; auto.
Qed.

(** ** The scan of [np.argmin] *)

Lemma argmin_from_minimum rest : forall pre mp min_ind,
  no_nan (pre ++ rest) ->
  first_minimum pre min_ind mp ->
  exists m,
    first_minimum (pre ++ rest) (argmin_from mp min_ind (length pre) rest) m.
Proof.
  induction rest as [|x rest IH]; intros pre mp min_ind Hnan (Hmp & Hle & Hlt).
  - rewrite app_nil_r. exists mp. repeat split; assumption.
  - assert (Hmp_nan : is_nan mp = false).
    { apply Forall_app in Hnan as [Hpre _].
      rewrite Forall_lookup in Hpre. exact (Hpre _ _ Hmp). }
    assert (Hx_nan : is_nan x = false).
    { apply Forall_app in Hnan as [_ Hrest]. by inversion Hrest. }
    assert (Hlen : (min_ind < length pre)%nat) by (eapply lookup_lt_Some; eauto).
    rewrite (cons_middle x pre rest), app_assoc in Hnan |- *.
    cbn [argmin_from]. replace (Datatypes.S (length pre)) with (length (pre ++ [x]))
      by (rewrite length_app; cbn; lia).
    destruct (mp <=? x)%float eqn:E; cbn [negb].
    + apply IH; [assumption|]. repeat split.
      * by apply lookup_app_l_Some.
      * intros j y Hj. apply lookup_app_Some in Hj as [Hj|[_ Hj]]; [eauto|].
        apply list_lookup_singleton_Some in Hj as [_ <-]. exact E.
      * intros j y Hjk Hj. rewrite lookup_app_l in Hj by lia. eauto.
    + rewrite Hx_nan. pose proof (leb_total _ _ Hmp_nan Hx_nan E) as Hxmp.
      apply IH; [assumption|]. repeat split.
      * rewrite lookup_app_r by lia. by rewrite Nat.sub_diag.
      * intros j y Hj. apply lookup_app_Some in Hj as [Hj|[_ Hj]].
        -- apply ltb_leb. eapply ltb_leb_trans; eauto.
        -- apply list_lookup_singleton_Some in Hj as [_ <-].
           by apply leb_refl.
      * intros j y Hjk Hj. rewrite lookup_app_l in Hj by lia.
        eapply ltb_leb_trans; eauto.
Qed.

(** Without NaN, [np.argmin] returns the first index of a minimum. *)
Lemma np_argmin_minimum g :
  g <> [] -> no_nan g ->
  exists k m, np_argmin g = Ok k /\ first_minimum g k m.
Proof.
  destruct g as [|x rest]; [congruence|]. intros _ Hnan.
  assert (Hx : is_nan x = false) by (by inversion Hnan).
  cbn [np_argmin]. rewrite Hx.
  destruct (argmin_from_minimum rest [x] x 0%nat) as [m Hm].
  - exact Hnan.
  - repeat split.
    + intros j y Hj. apply list_lookup_singleton_Some in Hj as [_ <-].
      by apply leb_refl.
    + intros j y Hj. lia.
  - eauto.
Qed.

Lemma argmin_from_first_nan rest : forall mp min_ind i,
  ~ no_nan rest ->
  exists j x,
    argmin_from mp min_ind i rest = (i + j)%nat /\
    rest !! j = Some x /\ is_nan x = true /\ no_nan (take j rest).
Proof.
  induction rest as [|x rest IH]; intros mp min_ind i Hnan.
  - exfalso. apply Hnan. constructor.
  - cbn [argmin_from]. destruct (is_nan x) eqn:Hx.
    + assert ((mp <=? x)%float = false) as ->.
      { apply not_true_iff_false. intros Hle.
        apply leb_not_nan in Hle as [_ Hle]. congruence. }
      exists 0%nat, x. cbn. rewrite Nat.add_0_r. repeat split; auto.
      constructor.
    + assert (Hrest : ~ no_nan rest).
      { intros Hrest. apply Hnan. by constructor. }
      assert (forall mp' k, exists j y,
                 argmin_from mp' k (Datatypes.S i) rest = (i + Datatypes.S j)%nat /\
                 rest !! j = Some y /\ is_nan y = true /\
                 no_nan (x :: take j rest)) as Hstep.
      { intros mp' k. destruct (IH mp' k (Datatypes.S i) Hrest)
          as (j & y & -> & Hj & Hy & Hpre).
        exists j, y. split; [lia|]. repeat split; auto. by constructor. }
      destruct (negb (mp <=? x)%float).
      * destruct (Hstep x i) as (j & y & ? & ? & ? & ?).
        exists (Datatypes.S j), y. auto.
      * destruct (Hstep mp min_ind) as (j & y & ? & ? & ? & ?).
        exists (Datatypes.S j), y. auto.
Qed.

(** With a NaN, [np.argmin] returns the index of the first NaN. *)
Lemma np_argmin_first_nan g :
  ~ no_nan g ->
  exists k x, np_argmin g = Ok k /\
    g !! k = Some x /\ is_nan x = true /\ no_nan (take k g).
Proof.
  destruct g as [|x rest]; intros Hnan.
  - exfalso. apply Hnan. constructor.
  - cbn [np_argmin]. destruct (is_nan x) eqn:Hx.
    + exists 0%nat, x. repeat split; auto. constructor.
    + assert (Hrest : ~ no_nan rest).
      { intros Hrest. apply Hnan. by constructor. }
      destruct (argmin_from_first_nan rest x 0%nat 1%nat Hrest)
        as (j & y & -> & Hj & Hy & Hpre).
      exists (Datatypes.S j), y. repeat split; auto. by constructor.
Qed.

(** A strict minimum is found at its own index. *)
Lemma np_argmin_unique g k m :
  g !! k = Some m ->
  (forall j x, j <> k -> g !! j = Some x -> (m <? x)%float = true) ->
  np_argmin g = Ok k.
Proof.
  intros Hk Huniq.
  destruct (decide (length g = 1%nat)) as [Hone|Hmore].
  - destruct g as [|x [|]]; try discriminate.
    apply lookup_lt_Some in Hk as Hlt. cbn in Hlt.
    assert (k = 0%nat) as -> by (clear -Hlt; lia). cbn. by destruct (is_nan x).
  - assert (Hlen : (k < length g)%nat) by (eapply lookup_lt_Some; eauto).
    assert (Hnan : no_nan g).
    { set (j0 := if decide (k = 0%nat) then 1%nat else 0%nat).
      assert (Hj0 : j0 <> k) by (subst j0; case_decide; lia).
      destruct (lookup_lt_is_Some_2 g j0) as [y Hy];
        [subst j0; case_decide; lia|].
      pose proof (Huniq _ _ Hj0 Hy) as Hmy.
      apply Forall_lookup. intros j x Hj.
      destruct (decide (j = k)) as [->|Hne].
      - rewrite Hk in Hj. injection Hj as <-. by apply ltb_not_nan in Hmy as [? _].
      - specialize (Huniq _ _ Hne Hj). by apply ltb_not_nan in Huniq as [_ ?]. }
    destruct (np_argmin_minimum g) as (k' & m' & -> & Hk' & Hle & _);
      [by destruct g|assumption|].
    destruct (decide (k' = k)) as [->|Hne]; [reflexivity|].
    specialize (Huniq _ _ Hne Hk'). apply ltb_not_leb in Huniq.
    rewrite (Hle _ _ Hk) in Huniq. discriminate.
Qed.

(** ** The minimum gap of [plot_anti_crossing] *)

Lemma column_valid (t : array2) (k : Z) :
  0 <= k < Z.of_nat (ncols t) ->
  column t k = Ok (map (fun row => row !!! Z.to_nat k) (rows t)).
Proof.
  intros Hk. unfold column.
  replace (- Z.of_nat (ncols t) <=? k) with true by (symmetry; apply Z.leb_le; lia).
  replace (k <? Z.of_nat (ncols t)) with true by (symmetry; apply Z.ltb_lt; lia).
  replace (k <? 0) with false by (symmetry; apply Z.ltb_ge; lia).
  reflexivity.
Qed.

Lemma zip_with_gap (rws : list (list float)) (a b : nat) :
  zip_with (fun e2 e1 => PrimFloat.abs (e2 - e1))
    (map (fun row => row !!! b) rws) (map (fun row => row !!! a) rws)
  = map (fun row => PrimFloat.abs (row !!! b - row !!! a)) rws.
Proof. induction rws as [|row rws IH]; cbn; [reflexivity|by rewrite IH]. Qed.

(** On valid level indices and a table as long as the grid, the function
    is the scan of the gap sequence followed by two reads. *)
Lemma plot_anti_crossing_valid fv t level1 level2 :
  0 <= level1 < Z.of_nat (ncols t) ->
  0 <= level2 < Z.of_nat (ncols t) ->
  length fv = length (rows t) ->
  plot_anti_crossing fv t level1 level2 =
    (let gap := gap_sequence t (Z.to_nat level1) (Z.to_nat level2) in
     min_gap_idx <~ np_argmin gap ;;
     min_gap <~ getitem gap min_gap_idx ;;
     min_gap_flux <~ getitem fv min_gap_idx ;;
     Ok (min_gap, min_gap_flux, min_gap_idx)).
Proof.
  intros H1 H2 Hlen. unfold plot_anti_crossing.
  replace (Z.of_nat (ncols t) <=? level2) with false
    by (symmetry; apply Z.leb_gt; lia).
  rewrite !column_valid by assumption. cbn [rbind].
  unfold ax_plot. rewrite !length_map, Hlen, Nat.eqb_refl. cbn [rbind].
  by rewrite zip_with_gap.
Qed.

(** C6 (amended). For a non-empty sweep table as long as its grid and two
    valid level indices, [plot_anti_crossing] returns an entry of the gap
    sequence [|E_b(p) - E_a(p)|] together with the grid value and the
    index where it stands. When no gap is NaN, that entry is the minimum
    of the sequence at its first occurrence; when some gap is NaN, it is
    the first NaN. A gap strictly below every other one is returned with
    exactly its index and value. *)
Theorem plot_anti_crossing_min_gap fv t level1 level2 :
  0 <= level1 < Z.of_nat (ncols t) ->
  0 <= level2 < Z.of_nat (ncols t) ->
  length fv = length (rows t) ->
  rows t <> [] ->
  let gap := gap_sequence t (Z.to_nat level1) (Z.to_nat level2) in
  exists min_gap flux k,
    plot_anti_crossing fv t level1 level2 = Ok (min_gap, flux, k) /\
    gap !! k = Some min_gap /\
    fv !! k = Some flux /\
    (no_nan gap -> first_minimum gap k min_gap) /\
    (~ no_nan gap -> is_nan min_gap = true /\ no_nan (take k gap)) /\
    (forall k' m',
        gap !! k' = Some m' ->
        (forall j x, j <> k' -> gap !! j = Some x -> (m' <? x)%float = true) ->
        k = k' /\ min_gap = m').
Proof.
  intros H1 H2 Hlen Hrows gap.
  assert (Hgap : gap <> []).
  { subst gap. unfold gap_sequence. destruct (rows t); [congruence|discriminate]. }
  assert (Hglen : length gap = length fv).
  { subst gap. unfold gap_sequence. by rewrite length_map. }
  assert (exists k m, np_argmin gap = Ok k /\ gap !! k = Some m /\
            (no_nan gap -> first_minimum gap k m) /\
            (~ no_nan gap -> is_nan m = true /\ no_nan (take k gap)))
    as (k & m & Hk & Hm & Hmin & Hnan).
  { destruct (decide (no_nan gap)) as [Hn|Hn].
    - destruct (np_argmin_minimum gap Hgap Hn) as (k & m & Hk & Hfm).
      exists k, m. split; [assumption|]. split; [apply Hfm|]. tauto.
    - destruct (np_argmin_first_nan gap Hn) as (k & m & Hk & Hm & Hmn & Hpre).
      exists k, m. tauto. }
  destruct (lookup_lt_is_Some_2 fv k) as [flux Hflux].
  { rewrite <- Hglen. eapply lookup_lt_Some; eauto. }
  exists m, flux, k.
  split.
  { rewrite plot_anti_crossing_valid by assumption. cbn zeta. fold gap.
    rewrite Hk. cbn [rbind]. unfold getitem. by rewrite Hm, Hflux. }
  split; [exact Hm|]. split; [exact Hflux|].
  split; [exact Hmin|]. split; [exact Hnan|].
  intros k' m' Hk' Hstrict.
  pose proof (np_argmin_unique gap k' m' Hk' Hstrict) as Hu.
  rewrite Hk in Hu. injection Hu as ->. split; congruence.
Qed.

(** The checked index. A second level index at or beyond the level
    count is refused with a [ValueError] that names it, before any column
    is read. *)
Lemma plot_anti_crossing_level2_checked fv t level1 level2 :
  Z.of_nat (ncols t) <= level2 ->
  plot_anti_crossing fv t level1 level2 =
    Err (ValueError (LevelNotAvailable level2 (Z.of_nat (ncols t) - 1))).
Proof.
  intros H2. unfold plot_anti_crossing.
  by replace (Z.of_nat (ncols t) <=? level2) with true
    by (symmetry; apply Z.leb_le; lia).
Qed.

(** C7, the unchecked index. A first level index at or beyond the level
    count passes the check of [level2] and fails in NumPy's indexing: the
    caller sees an [IndexError], not a [ValueError]. *)
Theorem plot_anti_crossing_level1_unchecked fv t level1 level2 :
  level2 < Z.of_nat (ncols t) ->
  Z.of_nat (ncols t) <= level1 ->
  plot_anti_crossing fv t level1 level2 =
    Err (IndexError (IndexOutOfBounds level1 1 (Z.of_nat (ncols t)))).
Proof.
  intros H2 H1. unfold plot_anti_crossing, column.
  replace (Z.of_nat (ncols t) <=? level2) with false
    by (symmetry; apply Z.leb_gt; lia).
  replace (level1 <? Z.of_nat (ncols t)) with false
    by (symmetry; apply Z.ltb_ge; lia).
  by rewrite andb_false_r.
Qed.

(** ** The engine over an arbitrary solver *)

Section EngineProperties.
Context {St : Type} {provider : Provider St}.

Lemma frames_ret {A} (a : A) : frames (ret a : M St A).
Proof. by intros w. Qed.

Lemma frames_raise {A} e : frames (@raise St A e).
Proof. by intros w. Qed.

Lemma frames_lift {A} (r : result A) : frames (lift r : M St A).
Proof. by intros w. Qed.

Lemma frames_bind {A B} (m : M St A) (k : A -> M St B) :
  frames m -> (forall a, frames (k a)) -> frames (bind m k).
Proof.
  intros Hm Hk w. unfold bind. specialize (Hm w).
  destruct (m w) as [[a|e] w1]; cbn in *; [|assumption].
  by rewrite Hk.
Qed.

Lemma frames_try_except {A} (m : M St A) catches h :
  frames m -> (forall e, frames (h e)) -> frames (try_except m catches h).
Proof.
  intros Hm Hh w. unfold try_except. specialize (Hm w).
  destruct (m w) as [[a|e] w1]; cbn in *; [assumption|].
  destruct (catches e); [by rewrite Hh|assumption].
Qed.

Lemma frames_call_trunc_is_set : frames call_trunc_is_set.
Proof. by intros w. Qed.

Lemma frames_call_set_trunc_nums nums : frames (call_set_trunc_nums nums).
Proof.
  intros w. unfold call_set_trunc_nums.
  by destruct (set_trunc_nums nums (solver w)).
Qed.

Lemma frames_call_update : frames call_update.
Proof.
  intros w. unfold call_update.
  by destruct (update (loop_value w) (solver w)).
Qed.

Lemma frames_call_diag n : frames (call_diag n).
Proof.
  intros w. unfold call_diag.
  by destruct (diag n (loop_value w) (solver w)).
Qed.

Create HintDb frames.
#[local] Hint Resolve frames_ret frames_raise frames_lift frames_call_trunc_is_set
  frames_call_set_trunc_nums frames_call_update frames_call_diag : frames.

Ltac frames_step :=
  first [ apply frames_bind; [|intros ?]
        | apply frames_try_except; [|intros ?]
        | solve [auto with frames] ].

Lemma frames_ensure_trunc_nums : frames ensure_trunc_nums.
Proof.
  unfold ensure_trunc_nums. frames_step; [frames_step|].
  destruct a; repeat frames_step.
Qed.

Lemma frames_diagonalize_hamiltonian circuit n :
  frames (diagonalize_hamiltonian circuit n).
Proof.
  unfold diagonalize_hamiltonian, diagonalize_body. frames_step; [|frames_step].
  destruct circuit; [|frames_step].
  frames_step; [apply frames_ensure_trunc_nums|].
  frames_step; [frames_step|]. destruct (a0.1); frames_step.
Qed.

(** The [try] body leaves the swept loop at the sample, whether it
    returns or raises, and every other loop untouched. *)
Lemma sweep_try_loop_value c loop n t i f w :
  loop_value (sweep_try c loop n t i f w).2 = <[loop := f]> (loop_value w).
Proof.
  unfold sweep_try. unfold bind at 1. cbn [set_loop_value].
  match goal with
  | |- loop_value (?m ?w1).2 = _ =>
      assert (Hf : frames m); [|exact (Hf w1)]
  end.
  frames_step; [frames_step|]. frames_step; [|frames_step].
  apply frames_diagonalize_hamiltonian.
Qed.

(** An iteration always completes: with the table its body stored into,
    or with the recovery row. *)
Lemma sweep_point_unfold c loop n t i f w :
  sweep_point c loop n t i f w =
    match sweep_try c loop n t i f w with
    | (Ok t', w') => (Ok t', w')
    | (Err _, w') => (Ok (sweep_recover t i), w')
    end.
Proof. reflexivity. Qed.

Lemma sweep_try_stores c loop n t i f w t' w' :
  sweep_try c loop n t i f w = (Ok t', w') ->
  exists energies,
    t' = store_prefix t i
           (Z.to_nat (Z.min n (Z.of_nat (length energies)))) energies.
Proof.
  unfold sweep_try, bind. cbn [set_loop_value].
  destruct (call_update _) as [[[]|e] w1]; [|discriminate].
  destruct (diagonalize_hamiltonian _ _ _) as [[r|e] w2]; [|discriminate].
  unfold ret. intros [= <- <-]. by exists (r.1).
Qed.

Lemma np_zeros_shape n_points n_levels :
  0 <= n_points -> 0 <= n_levels ->
  exists zeros, np_zeros n_points n_levels = Ok zeros /\
    has_shape (Z.to_nat n_points) n_levels zeros.
Proof.
  intros Hp Hl. unfold np_zeros.
  replace (n_points <? 0) with false by (symmetry; apply Z.ltb_ge; lia).
  replace (n_levels <? 0) with false by (symmetry; apply Z.ltb_ge; lia).
  eexists. split; [reflexivity|]. repeat split; cbn.
  - by rewrite length_replicate.
  - apply Forall_replicate. by rewrite length_replicate.
Qed.

Lemma store_prefix_shape n_rows n_levels t i energies :
  has_shape n_rows n_levels t ->
  has_shape n_rows n_levels
    (store_prefix t i
       (Z.to_nat (Z.min n_levels (Z.of_nat (length energies)))) energies).
Proof.
  intros (Hc & Hr & Hw). repeat split; cbn [store_prefix ncols rows].
  - exact Hc.
  - by rewrite length_alter.
  - unfold well_shaped in *. cbn [ncols rows]. apply Forall_alter; [exact Hw|].
    intros row _ Hrow. cbn [store_prefix ncols] in Hrow |- *.
    rewrite length_app, length_take, length_drop. lia.
Qed.

Lemma sweep_recover_shape n_rows n_levels t i :
  has_shape n_rows n_levels t -> has_shape n_rows n_levels (sweep_recover t i).
Proof.
  intros (Hc & Hr & Hw). unfold sweep_recover, copy_row, fill_row.
  destruct (0 <? i)%nat.
  - destruct (rows t !! (i - 1)%nat) as [row|] eqn:E; [|by repeat split].
    repeat split; cbn [ncols rows]; [exact Hc|by rewrite length_insert|].
    apply Forall_insert; [exact Hw|].
    unfold well_shaped in Hw. rewrite Forall_lookup in Hw. by eapply Hw.
  - repeat split; cbn [ncols rows]; [exact Hc|by rewrite length_insert|].
    apply Forall_insert; [exact Hw|]. by rewrite length_replicate.
Qed.

Lemma sweep_point_ok c loop n t i f w :
  exists t' w', sweep_point c loop n t i f w = (Ok t', w') /\
    loop_value w' = <[loop := f]> (loop_value w) /\
    (forall n_rows, has_shape n_rows n t -> has_shape n_rows n t') /\
    (forall k, k <> i -> rows t' !! k = rows t !! k).
Proof.
  rewrite sweep_point_unfold.
  pose proof (sweep_try_loop_value c loop n t i f w) as Hlv.
  destruct (sweep_try c loop n t i f w) as [[t'|e] w'] eqn:E; cbn in Hlv.
  - exists t', w'. split; [reflexivity|]. split; [exact Hlv|].
    apply sweep_try_stores in E as [energies ->]. split.
    + intros n_rows. apply store_prefix_shape.
    + intros k Hk. cbn [store_prefix rows]. by apply list_lookup_alter_ne.
  - exists (sweep_recover t i), w'. split; [reflexivity|]. split; [exact Hlv|].
    split; [intros n_rows; apply sweep_recover_shape|].
    intros k Hk. unfold sweep_recover, copy_row, fill_row.
    destruct (0 <? i)%nat; [destruct (rows t !! (i - 1)%nat)|];
      cbn [rows]; try reflexivity; by apply list_lookup_insert_ne.
Qed.

(** The loop never raises; it keeps the shape of the table and the rows
    before its first index, and leaves the loop at the last sample. *)
Lemma sweep_loop_ok c loop n fluxes : forall t i w,
  exists t' w', sweep_loop c loop n t i fluxes w = (Ok t', w') /\
    (forall n_rows, has_shape n_rows n t -> has_shape n_rows n t') /\
    (forall k, (k < i)%nat -> rows t' !! k = rows t !! k) /\
    loop_value w' !! loop =
      match last fluxes with
      | Some f => Some f
      | None => loop_value w !! loop
      end /\
    (forall l, l <> loop -> loop_value w' !! l = loop_value w !! l).
Proof.
  induction fluxes as [|f rest IH]; intros t i w.
  - exists t, w. split; [reflexivity|]. split; [auto|]. split; [auto|].
    split; [reflexivity|auto].
  - cbn [sweep_loop]. unfold bind at 1.
    destruct (sweep_point_ok c loop n t i f w)
      as (t1 & w1 & -> & Hlv & Hshape & Hrows).
    destruct (IH t1 (Datatypes.S i) w1)
      as (t' & w' & -> & Hshape' & Hrows' & Hlv' & Hother).
    exists t', w'. split; [reflexivity|]. split; [|split; [|split]].
    + intros n_rows Ht. auto.
    + intros k Hk. rewrite Hrows' by lia. apply Hrows. lia.
    + rewrite Hlv', Hlv, last_cons.
      destruct (last rest); [reflexivity|apply lookup_insert_eq].
    + intros l Hl. rewrite Hother, Hlv by assumption.
      by apply lookup_insert_ne.
Qed.

Lemma sweep_loop_app c loop n l1 l2 : forall t i w,
  sweep_loop c loop n t i (l1 ++ l2) w =
    match sweep_loop c loop n t i l1 w with
    | (Ok t1, w1) => sweep_loop c loop n t1 (i + length l1)%nat l2 w1
    | (Err e, w1) => (Err e, w1)
    end.
Proof.
  induction l1 as [|f l1 IH]; intros t i w.
  - cbn. by rewrite Nat.add_0_r.
  - cbn [app sweep_loop]. unfold bind.
    destruct (sweep_point c loop n t i f w) as [[t1|e] w1]; [|reflexivity].
    rewrite IH. cbn [length]. by rewrite Nat.add_succ_r.
Qed.

(** The grid: as many samples as asked for, ending at [stop] when there
    are at least two. *)
Lemma linspace_ok start stop num :
  0 <= num ->
  exists grid, linspace start stop num = Ok grid /\
    length grid = Z.to_nat num /\
    (1 < num -> last grid = Some stop).
Proof.
  intros Hnum. unfold linspace.
  replace (num <? 0) with false by (symmetry; apply Z.ltb_ge; lia).
  match goal with
  | |- context [if 1 <? num then set_last ?y stop else _] => set (samples := y)
  end.
  assert (Hlen : length samples = Z.to_nat num).
  { subst samples. rewrite length_map.
    destruct (0 <? num - 1); [destruct (_ =? 0)%float|];
      by rewrite !length_map, length_seq. }
  eexists. split; [reflexivity|]. destruct (Z.ltb_spec 1 num) as [Hlt|Hge].
  - unfold set_last. rewrite length_insert. split; [exact Hlen|]. intros _.
    rewrite last_lookup, length_insert.
    replace (pred (length samples)) with (length samples - 1)%nat by lia.
    apply list_lookup_insert_eq. lia.
  - split; [exact Hlen|lia].
Qed.

(** On a valid range and a circuit with a loop, the call is the sweep
    loop over the grid, started on the table of zeros. *)
Lemma flux_sweep_valid c loop lo hi n_points n_levels grid zeros w :
  valid_flux_range lo hi = true ->
  linspace lo hi n_points = Ok grid ->
  np_zeros n_points n_levels = Ok zeros ->
  find_loop c = Some loop ->
  flux_sweep (Some c) (Some (lo, hi)) n_points n_levels w =
    match sweep_loop c loop n_levels zeros 0 grid w with
    | (Ok table, w') => (Ok (grid, table), w')
    | (Err e, w') => (Err (RuntimeError "Error during flux sweep" e), w')
    end.
Proof.
  intros Hrange Hgrid Hzeros Hloop.
  unfold flux_sweep, flux_sweep_body.
  change (default _ (Some (lo, hi))) with (lo, hi). cbv beta iota.
  unfold try_except, bind, lift, ret.
  rewrite Hrange, Hgrid, Hzeros, Hloop. cbn [negb].
  by destruct (sweep_loop c loop n_levels zeros 0 grid w) as [[table|e] w'].
Qed.

Lemma flux_sweep_default (circuit : option Circuit) n_points n_levels :
  flux_sweep circuit None n_points n_levels =
  flux_sweep circuit (Some (0, 1)%float) n_points n_levels.
Proof. reflexivity. Qed.

(** A diagonalization that raises makes the [try] body of its
    iteration raise. *)
Lemma sweep_try_diagonalization_fails c loop n t i f w w1 e w2 :
  call_update (World (<[loop := f]> (loop_value w)) (solver w)) = (Ok tt, w1) ->
  diagonalize_hamiltonian (Some c) n w1 = (Err e, w2) ->
  sweep_try c loop n t i f w = (Err e, w2).
Proof.
  intros Hupdate Hdiag. unfold sweep_try, bind. cbn [set_loop_value].
  by rewrite Hupdate, Hdiag.
Qed.


(** C2 (amended). A flux range that fails [0 <= lo < hi <= 1] is refused
    before anything else happens: the [ValueError] is raised with the
    world untouched (no loop value written, no solver call whatever the
    solver is) and reaches the caller as the cause of a [RuntimeError]. *)
Theorem flux_sweep_rejects_invalid_range circuit lo hi n_points n_levels w :
  valid_flux_range lo hi = false ->
  flux_sweep_body circuit (Some (lo, hi)) n_points n_levels w
    = (Err (ValueError (InvalidFluxRange lo hi)), w) /\
  flux_sweep circuit (Some (lo, hi)) n_points n_levels w
    = (Err (RuntimeError "Error during flux sweep"
              (ValueError (InvalidFluxRange lo hi))), w).
Proof.
  intros Hrange.
  assert (flux_sweep_body circuit (Some (lo, hi)) n_points n_levels w
          = (Err (ValueError (InvalidFluxRange lo hi)), w)) as Hbody.
  { unfold flux_sweep_body. change (default _ (Some (lo, hi))) with (lo, hi).
    cbv beta iota. by rewrite Hrange. }
  split; [exact Hbody|]. unfold flux_sweep, try_except. by rewrite Hbody.
Qed.

(** Away from a zero step, the samples before the last are
    [i * step + start]. *)
Lemma linspace_lookup start stop num grid (i : nat) :
  linspace start stop num = Ok grid ->
  ((stop - start) / float_of_Z (num - 1) =? 0)%float = false ->
  Z.of_nat i < num - 1 ->
  grid !! i =
    Some (float_of_Z (Z.of_nat i) * ((stop - start) / float_of_Z (num - 1))
          + start)%float.
Proof.
  intros Hgrid Hstep Hi. unfold linspace in Hgrid.
  replace (num <? 0) with false in Hgrid by (symmetry; apply Z.ltb_ge; lia).
  replace (0 <? num - 1) with true in Hgrid by (symmetry; apply Z.ltb_lt; lia).
  replace (1 <? num) with true in Hgrid by (symmetry; apply Z.ltb_lt; lia).
  rewrite Hstep in Hgrid. injection Hgrid as <-.
  unfold set_last. rewrite !length_map, length_seq.
  rewrite list_lookup_insert_ne by lia.
  rewrite !list_lookup_fmap, lookup_seq_lt by lia. reflexivity.
Qed.

(** Whatever the step, a sample before the last is [i * step + start],
    or [i / (num - 1) * (stop - start) + start] where the step is zero. *)
Lemma linspace_lookup_any start stop num grid (i : nat) :
  linspace start stop num = Ok grid ->
  Z.of_nat i < num - 1 ->
  grid !! i =
    Some (if ((stop - start) / float_of_Z (num - 1) =? 0)%float
          then float_of_Z (Z.of_nat i) / float_of_Z (num - 1) * (stop - start)
               + start
          else float_of_Z (Z.of_nat i)
               * ((stop - start) / float_of_Z (num - 1)) + start)%float.
Proof.
  intros Hgrid Hi. unfold linspace in Hgrid.
  replace (num <? 0) with false in Hgrid by (symmetry; apply Z.ltb_ge; lia).
  replace (0 <? num - 1) with true in Hgrid by (symmetry; apply Z.ltb_lt; lia).
  replace (1 <? num) with true in Hgrid by (symmetry; apply Z.ltb_lt; lia).
  injection Hgrid as <-. unfold set_last.
  destruct ((stop - start) / float_of_Z (num - 1) =? 0)%float;
    rewrite !length_map, length_seq;
    rewrite list_lookup_insert_ne by lia;
    rewrite !list_lookup_fmap, lookup_seq_lt by lia; reflexivity.
Qed.

(** C3 (amended). A valid call returns [n_points] grid values and
    [n_points] rows of [n_levels] slots each, whatever the solver does.
    The grid is NumPy's [linspace]: with [step = (hi - lo) / (n_points - 1)],
    its samples before the last are [i * step + lo], or
    [i / (n_points - 1) * (hi - lo) + lo] where the step is zero in
    binary64; its last sample is [hi] itself when there are at least
    two, and its only sample is [0 * (hi - lo) + lo] when there is one.
    Over [0, 1] with 5 points it is [0, 0.25, 0.5, 0.75, 1]. *)
Theorem flux_sweep_shape_and_grid c loop lo hi n_points n_levels w :
  valid_flux_range lo hi = true ->
  1 <= n_points ->
  1 <= n_levels ->
  find_loop c = Some loop ->
  exists grid table w',
    flux_sweep (Some c) (Some (lo, hi)) n_points n_levels w
      = (Ok (grid, table), w') /\
    length grid = Z.to_nat n_points /\
    length (rows table) = Z.to_nat n_points /\
    ncols table = Z.to_nat n_levels /\
    Forall (fun row => length row = Z.to_nat n_levels) (rows table) /\
    linspace lo hi n_points = Ok grid /\
    (2 <= n_points -> last grid = Some hi) /\
    (forall i : nat,
        Z.of_nat i < n_points - 1 ->
        grid !! i =
          Some (if ((hi - lo) / float_of_Z (n_points - 1) =? 0)%float
                then float_of_Z (Z.of_nat i) / float_of_Z (n_points - 1)
                     * (hi - lo) + lo
                else float_of_Z (Z.of_nat i)
                     * ((hi - lo) / float_of_Z (n_points - 1)) + lo)%float) /\
    (n_points = 1 -> grid = [(0 * (hi - lo) + lo)%float]) /\
    (lo = 0%float -> hi = 1%float -> n_points = 5 ->
     grid = [0; 0.25; 0.5; 0.75; 1]%float).
Proof.
  intros Hrange Hp Hl Hloop.
  destruct (linspace_ok lo hi n_points) as (grid & Hgrid & Hglen & Hlast); [lia|].
  destruct (np_zeros_shape n_points n_levels) as (zeros & Hzeros & Hshape0);
    [lia..|].
  destruct (sweep_loop_ok c loop n_levels grid zeros 0%nat w)
    as (table & w' & Hrun & Hshape & _).
  destruct (Hshape _ Hshape0) as (Hc & Hr & Hw).
  exists grid, table, w'. split.
  { by rewrite (flux_sweep_valid c loop lo hi n_points n_levels grid zeros), Hrun. }
  split; [exact Hglen|]. split; [exact Hr|]. split; [exact Hc|].
  split; [unfold well_shaped in Hw; by rewrite Hc in Hw|].
  split; [exact Hgrid|]. split; [intros ?; apply Hlast; lia|].
  split; [intros i; by apply linspace_lookup_any|]. split.
  - intros ->. cbv in Hgrid. by injection Hgrid as <-.
  - intros -> -> ->. vm_compute in Hgrid. by injection Hgrid as <-.
Qed.


(** C9. Whatever makes the body of [diagonalize_hamiltonian] raise, the
    caller sees a [RuntimeError] whose cause is that exception, in the
    state the body left; no other exception leaves the function. A
    missing circuit and a failing eigensolver are two such cases. *)
Theorem diagonalize_hamiltonian_wraps_failures circuit n_levels w :
  (forall e w',
      diagonalize_hamiltonian circuit n_levels w = (Err e, w') ->
      exists cause,
        e = RuntimeError "Error diagonalizing Hamiltonian" cause /\
        diagonalize_body circuit n_levels w = (Err cause, w')) /\
  (forall cause w',
      diagonalize_body circuit n_levels w = (Err cause, w') ->
      diagonalize_hamiltonian circuit n_levels w
        = (Err (RuntimeError "Error diagonalizing Hamiltonian" cause), w')) /\
  (circuit = None ->
   diagonalize_hamiltonian circuit n_levels w
     = (Err (RuntimeError "Error diagonalizing Hamiltonian"
               (ValueError CircuitIsNone)), w)) /\
  (forall c w1 e w2,
      circuit = Some c ->
      ensure_trunc_nums w = (Ok tt, w1) ->
      call_diag n_levels w1 = (Err e, w2) ->
      diagonalize_hamiltonian circuit n_levels w
        = (Err (RuntimeError "Error diagonalizing Hamiltonian" e), w2)).
Proof.
  assert (Hwrap : forall cause w',
    diagonalize_body circuit n_levels w = (Err cause, w') ->
    diagonalize_hamiltonian circuit n_levels w
      = (Err (RuntimeError "Error diagonalizing Hamiltonian" cause), w')).
  { intros cause w' Hbody. unfold diagonalize_hamiltonian, try_except.
    by rewrite Hbody. }
  split; [|split; [exact Hwrap|split]].
  - intros e w'. unfold diagonalize_hamiltonian, try_except.
    destruct (diagonalize_body circuit n_levels w) as [[r|cause] w1];
      [discriminate|].
    cbn [any_exception raise]. intros [= <- <-]. by exists cause.
  - intros ->. by apply Hwrap.
  - intros c w1 e w2 -> Htrunc Hdiag. apply Hwrap.
    unfold diagonalize_body, bind. by rewrite Htrunc, Hdiag.
Qed.

End EngineProperties.

(** ** Validation, anharmonicity and gate metrics *)

(** C8. A flux below 0, above 1 or NaN is refused with a [ValueError]
    that carries the value as given, and so is an energy at or below 0;
    a flux in [0, 1], both ends included, and an energy above 0 are
    accepted. Validation only answers: it hands back no value, so none
    can come back clamped. *)
Theorem validation_rejects_outside_accepts_inside flux energy name :
  ((flux <? 0)%float = true \/ (1 <? flux)%float = true \/ is_nan flux = true ->
   validate_flux flux = Err (ValueError (FluxOutOfRange flux))) /\
  ((0 <=? flux)%float = true -> (flux <=? 1)%float = true ->
   validate_flux flux = Ok true) /\
  ((energy <=? 0)%float = true ->
   validate_energy energy name = Err (ValueError (MustBePositive name energy))) /\
  ((0 <? energy)%float = true -> validate_energy energy name = Ok true) /\
  validate_flux 0 = Ok true /\
  validate_flux 1 = Ok true /\
  validate_flux 1.5 = Err (ValueError (FluxOutOfRange 1.5)) /\
  validate_energy (-1) "Energy"
    = Err (ValueError (MustBePositive "Energy" (-1))).
Proof.
  unfold validate_flux, validate_energy. repeat split.
  - intros [Hlow|[Hhigh|Hnan]].
    + by rewrite (ltb_not_leb _ _ Hlow).
    + by rewrite (ltb_not_leb _ _ Hhigh), andb_false_r.
    + destruct (0 <=? flux)%float eqn:E; [|reflexivity].
      apply leb_not_nan in E as [_ E]. congruence.
  - by intros -> ->.
  - by intros ->.
  - intros Hpos. by rewrite (ltb_not_leb _ _ Hpos).
Qed.

(** C4. With three entries or more, [calculate_anharmonicity] returns
    [(e[2] - e[1]) - (e[1] - e[0])], and [calculate_gate_metrics] stores
    the same float under ["anharmonicity"]. *)
Theorem anharmonicity_is_second_difference (energies : list float) :
  (3 <= length energies)%nat ->
  let e0 := energies !!! 0%nat in
  let e1 := energies !!! 1%nat in
  let e2 := energies !!! 2%nat in
  calculate_anharmonicity energies = Ok ((e2 - e1) - (e1 - e0))%float /\
  exists metrics,
    calculate_gate_metrics energies = Ok metrics /\
    metrics !! "anharmonicity" = Some (PyFloat ((e2 - e1) - (e1 - e0))%float).
Proof.
  intros Hlen.
  destruct energies as [|x0 [|x1 [|x2 rest]]]; cbn [length] in Hlen; try lia.
  split; [reflexivity|]. eexists. split; [reflexivity|].
  apply lookup_insert_eq.
Qed.

(** C5. [calculate_gate_metrics] raises [ValueError] on fewer than two
    entries. On exactly two it returns the ground energy [e[0]], the
    transition frequency [e[1] - e[0]], and [None] (neither a number nor
    an error) for the anharmonicity. *)
Theorem gate_metrics_on_short_sequences (energies : list float) :
  ((length energies < 2)%nat ->
   calculate_gate_metrics energies = Err (ValueError (NeedLevels 2))) /\
  (forall e0 e1,
      energies = [e0; e1] ->
      exists metrics,
        calculate_gate_metrics energies = Ok metrics /\
        metrics !! "ground_state_energy" = Some (PyFloat e0) /\
        metrics !! "first_excited_energy" = Some (PyFloat e1) /\
        metrics !! "transition_frequency" = Some (PyFloat (e1 - e0)) /\
        metrics !! "anharmonicity" = Some PyNone).
Proof.
  split.
  - intros Hlen. unfold calculate_gate_metrics.
    by replace (length energies <? 2)%nat with true
      by (symmetry; apply Nat.ltb_lt; lia).
  - intros e0 e1 ->. eexists. split; [reflexivity|].
    repeat split; by simplify_map_eq.
Qed.

(** ** The engine on the scripted solver *)

(** A sweep of five points whose first and third diagonalizations fail:
    row 0 is all NaN, row 2 repeats row 1, and the grid is untouched. *)
Example sweep_with_two_failures :
  (flux_sweep (provider := Demo.scripted [0; 2]%nat)
     (Some Demo.inverter) None 5 3 Demo.initial).1
  = Ok ([0; 0.25; 0.5; 0.75; 1]%float,
        Array2 3 [[nan; nan; nan];
                  [0.25; 1.25; 3.25];
                  [0.25; 1.25; 3.25];
                  [0.75; 1.75; 3.75];
                  [1; 2; 4]]%float).
Proof. vm_compute. reflexivity. Qed.

(** In that sweep the third iteration starts from the table of the first
    two, and its [try] body raises the wrapped solver error. *)
Example third_point_fails :
  exists t_2 w_2 e w_e,
    sweep_loop (provider := Demo.scripted [0; 2]%nat) Demo.inverter 0%nat 3
      (Array2 3 (replicate 5 (replicate 3 0%float))) 0 [0; 0.25]%float
      Demo.initial = (Ok t_2, w_2) /\
    sweep_try (provider := Demo.scripted [0; 2]%nat) Demo.inverter 0%nat 3
      t_2 2 0.5%float w_2 = (Err e, w_e) /\
    e = RuntimeError "Error diagonalizing Hamiltonian"
          (OtherError "ArpackNoConvergence" (External "no convergence")).
Proof. do 4 eexists. vm_compute. repeat split; reflexivity. Qed.


Lemma flux_sweep_rejects_invalid_range_witness :
  flux_sweep_body (provider := Demo.scripted []) (Some Demo.inverter)
    (Some (0.5, 0.25)%float) 5 3 Demo.initial
    = (Err (ValueError (InvalidFluxRange 0.5 0.25)), Demo.initial) /\
  flux_sweep (provider := Demo.scripted []) (Some Demo.inverter)
    (Some (0.5, 0.25)%float) 5 3 Demo.initial
    = (Err (RuntimeError "Error during flux sweep"
              (ValueError (InvalidFluxRange 0.5 0.25))), Demo.initial).
Proof.
  apply (flux_sweep_rejects_invalid_range (provider := Demo.scripted [])
           (Some Demo.inverter) 0.5%float 0.25%float 5 3 Demo.initial).
  reflexivity.
Defined.

(** C2 as stated fails: with [n_points = 0], below the stated minimum of
    1, the sweep raises nothing and returns an empty result; with
    [n_levels = 0] it goes as far as calling the solver three times; and
    the error of an invalid range is not itself a [ValueError]. *)
Lemma flux_sweep_accepts_zero_points :
  ~ 1 <= 0 /\
  flux_sweep (provider := Demo.scripted []) (Some Demo.inverter)
    (Some (0, 1)%float) 0 3 Demo.initial
    = (Ok ([], Array2 3 []), Demo.initial) /\
  (exists r w', flux_sweep (provider := Demo.scripted []) (Some Demo.inverter)
                  (Some (0, 1)%float) 3 0 Demo.initial = (Ok r, w') /\
                solver w' = 3%nat) /\
  (exists e w', flux_sweep (provider := Demo.scripted []) (Some Demo.inverter)
                  (Some (0.5, 0.25)%float) 5 3 Demo.initial = (Err e, w') /\
                is_value_error e = false).
Proof.
  split; [lia|]. split; [reflexivity|]. split.
  - do 2 eexists. vm_compute. split; reflexivity.
  - do 2 eexists. vm_compute. split; reflexivity.
Qed.

Lemma flux_sweep_shape_and_grid_witness :
  exists grid table w',
    flux_sweep (provider := Demo.scripted [0; 2]%nat)
      (Some Demo.inverter) (Some (0, 1)%float) 5 3 Demo.initial
      = (Ok (grid, table), w') /\
    length grid = 5%nat /\
    length (rows table) = 5%nat /\
    ncols table = 3%nat /\
    Forall (fun row => length row = 3%nat) (rows table) /\
    grid = [0; 0.25; 0.5; 0.75; 1]%float.
Proof.
  destruct (flux_sweep_shape_and_grid (provider := Demo.scripted [0; 2]%nat)
              Demo.inverter 0%nat 0%float 1%float 5 3 Demo.initial)
    as (grid & table & w' & Hrun & Hg & Hr & Hc & Hrows & _ & _ & _ & _ & Hfive);
    [reflexivity | lia | lia | reflexivity |].
  exists grid, table, w'. repeat split; try assumption. by apply Hfive.
Defined.

(** C3 as stated fails: with one point over [0, 1] the grid is the single
    sample 0, and the upper end 1 is not in it. *)
Lemma single_sample_grid_misses_upper_end :
  1 <= 1 /\
  valid_flux_range 0 1 = true /\
  flux_sweep (provider := Demo.scripted []) (Some Demo.inverter)
    (Some (0, 1)%float) 1 3 Demo.initial
    = (Ok ([0%float], Array2 3 [[0; 1; 3]%float]),
       World {[ 0%nat := 0%float ]} 1%nat) /\
  forallb (fun x => negb (x =? 1)%float) [0%float] = true.
Proof. repeat split; try lia; vm_compute; reflexivity. Qed.

(** A range so narrow that the step is zero in binary64: four points
    over [0, 2^-1074] are [0, 0, 2^-1074, 2^-1074], where [i * step + lo]
    would be 0 throughout. *)
Example grid_with_zero_step :
  valid_flux_range 0 0x1p-1074 = true /\
  ((0x1p-1074 - 0) / float_of_Z (4 - 1) =? 0)%float = true /\
  linspace 0 0x1p-1074 4 = Ok [0; 0; 0x1p-1074; 0x1p-1074]%float.
Proof. vm_compute. by repeat split. Qed.



Lemma anharmonicity_is_second_difference_witness :
  calculate_anharmonicity [0; 5; 9.5]%float = Ok (-0.5)%float /\
  exists metrics,
    calculate_gate_metrics [0; 5; 9.5]%float = Ok metrics /\
    metrics !! "anharmonicity" = Some (PyFloat (-0.5)).
Proof.
  apply (anharmonicity_is_second_difference [0; 5; 9.5]%float). cbn. lia.
Defined.

Lemma plot_anti_crossing_min_gap_witness :
  exists min_gap flux k,
    plot_anti_crossing [0; 0.5; 1]%float
      (Array2 2 [[0; 4]; [1; 2]; [1; 3]]%float) 0 1 = Ok (min_gap, flux, k) /\
    k = 1%nat /\ min_gap = 1%float /\ flux = 0.5%float.
Proof.
  destruct (plot_anti_crossing_min_gap [0; 0.5; 1]%float
              (Array2 2 [[0; 4]; [1; 2]; [1; 3]]%float) 0 1)
    as (min_gap & flux & k & Hrun & _ & Hflux & _ & _ & Huniq);
    [cbn; lia | cbn; lia | reflexivity | discriminate |].
  exists min_gap, flux, k. split; [exact Hrun|].
  destruct (Huniq 1%nat 1%float) as [-> ->]; [reflexivity| |].
  - intros [|[|[|j]]] x Hj [= <-]; by vm_compute.
  - repeat split. vm_compute in Hflux. congruence.
Defined.

(** C6 as stated fails on a sweep whose first point failed: the NaN row
    makes the first gap NaN, which is what comes back, at index 0; it is
    not at or below the gap 1 of the later points. *)
Lemma min_gap_of_sweep_with_failed_first_point :
  exists grid table w',
    flux_sweep (provider := Demo.scripted [0%nat]) (Some Demo.inverter)
      (Some (0, 1)%float) 3 3 Demo.initial = (Ok (grid, table), w') /\
    gap_sequence table 0 1 = [nan; 1; 1]%float /\
    plot_anti_crossing grid table 0 1 = Ok (nan, 0%float, 0%nat) /\
    (nan <=? 1)%float = false.
Proof. do 3 eexists. vm_compute. repeat split; reflexivity. Qed.

Lemma plot_anti_crossing_level1_unchecked_witness :
  plot_anti_crossing [0; 0.5; 1]%float
    (Array2 2 [[0; 4]; [1; 2]; [1; 3]]%float) 5 1
  = Err (IndexError (IndexOutOfBounds 5 1 2)).
Proof.
  apply (plot_anti_crossing_level1_unchecked [0; 0.5; 1]%float
           (Array2 2 [[0; 4]; [1; 2]; [1; 3]]%float) 5 1); cbn; lia.
Defined.

(** * Further properties of the modelled code *)

(** ** Transition frequencies and gate metrics *)

(** [compute_transition_frequencies] refuses fewer than two levels, and
    otherwise returns one frequency per excited level, each measured from
    the ground level [energies[0]]. *)
Theorem transition_frequencies_from_ground (energies : list float) :
  ((length energies < 2)%nat ->
   compute_transition_frequencies energies = Err (ValueError (NeedLevels 2))) /\
  ((2 <= length energies)%nat ->
   exists transitions,
     compute_transition_frequencies energies = Ok transitions /\
     length transitions = (length energies - 1)%nat /\
     forall (i : nat) e,
       energies !! Datatypes.S i = Some e ->
       transitions !! i = Some (e - energies !!! 0%nat)%float).
Proof.
  unfold compute_transition_frequencies. split; intros Hlen.
  - by replace (length energies <? 2)%nat with true
      by (symmetry; apply Nat.ltb_lt; lia).
  - replace (length energies <? 2)%nat with false
      by (symmetry; apply Nat.ltb_ge; lia).
    destruct energies as [|e0 rest]; [cbn in Hlen; lia|].
    cbn [getitem lookup list_lookup rbind].
    change (drop 1 (e0 :: rest)) with (drop 0 rest). rewrite drop_0.
    eexists. split; [reflexivity|].
    split; [rewrite length_map; cbn; lia|].
    intros i e Hi. change (rest !! i = Some e) in Hi.
    rewrite list_lookup_fmap, Hi. reflexivity.
Qed.

Lemma transition_frequencies_from_ground_witness :
  exists transitions,
    compute_transition_frequencies [0; 5; 9.5]%float = Ok transitions /\
    length transitions = 2%nat /\
    forall (i : nat) e,
      [0; 5; 9.5]%float !! Datatypes.S i = Some e ->
      transitions !! i = Some (e - 0)%float.
Proof.
  apply (proj2 (transition_frequencies_from_ground [0; 5; 9.5]%float)).
  cbn. lia.
Defined.

(** Whenever [calculate_gate_metrics] returns, its dict has exactly the
    four keys of the report, its anharmonicity is the result of
    [calculate_anharmonicity] ([None] exactly when that function raises),
    and its transition frequency is the first entry of
    [compute_transition_frequencies]. *)
Theorem gate_metrics_agree_with_simulator (energies : list float) metrics :
  calculate_gate_metrics energies = Ok metrics ->
  dom metrics = ({["ground_state_energy"; "first_excited_energy";
                   "transition_frequency"; "anharmonicity"]} : gset string) /\
  metrics !! "anharmonicity"
    = Some (match calculate_anharmonicity energies with
            | Ok a => PyFloat a
            | Err _ => PyNone
            end) /\
  exists transitions,
    compute_transition_frequencies energies = Ok transitions /\
    metrics !! "transition_frequency" = PyFloat <$> head transitions.
Proof.
  unfold calculate_gate_metrics.
  destruct energies as [|e0 [|e1 [|e2 rest]]]; try discriminate.
  - intros [= <-]. split; [|split].
    + rewrite !dom_insert_L, dom_empty_L. set_solver.
    + by simplify_map_eq.
    + eexists. split; [reflexivity|]. by simplify_map_eq.
  - intros [= <-]. split; [|split].
    + rewrite !dom_insert_L, dom_empty_L. set_solver.
    + by simplify_map_eq.
    + eexists. split; [reflexivity|]. by simplify_map_eq.
Qed.

Lemma gate_metrics_agree_with_simulator_witness :
  exists metrics,
    calculate_gate_metrics [0; 5]%float = Ok metrics /\
    metrics !! "anharmonicity" = Some PyNone /\
    metrics !! "transition_frequency" = Some (PyFloat 5).
Proof.
  eexists. split; [reflexivity|].
  destruct (gate_metrics_agree_with_simulator [0; 5]%float _ eq_refl)
    as (_ & Ha & ts & Hts & Ht).
  split; [exact Ha|]. vm_compute in Hts. injection Hts as <-. exact Ht.
Defined.

(** ** The gap marker of [plot_anti_crossing] *)

Lemma abs_not_negative (x : float) : (PrimFloat.abs x <? 0)%float = false.
Proof.
  rewrite FloatAxioms.ltb_spec, FloatAxioms.abs_spec.
  change (Prim2SF 0) with (S754_zero false).
  by destruct (Prim2SF x) as [s|s| |s m e].
Qed.

(** Whatever the table and the indices, a marker that comes back reads
    the grid at the returned index and its gap is never negative. *)
Theorem plot_anti_crossing_gap_not_negative fv t level1 level2 min_gap flux k :
  plot_anti_crossing fv t level1 level2 = Ok (min_gap, flux, k) ->
  (min_gap <? 0)%float = false /\ fv !! k = Some flux.
Proof.
  unfold plot_anti_crossing.
  destruct (Z.of_nat (ncols t) <=? level2); [discriminate|].
  destruct (column t level1) as [col1|]; [|discriminate].
  cbn [rbind]. destruct (ax_plot fv col1); [|discriminate].
  cbn [rbind]. destruct (column t level2) as [col2|]; [|discriminate].
  cbn [rbind]. destruct (ax_plot fv col2); [|discriminate].
  cbn [rbind]. destruct (np_argmin _) as [idx|]; [|discriminate].
  cbn [rbind]. unfold getitem.
  destruct (zip_with _ col2 col1 !! idx) as [g|] eqn:Hg; [|discriminate].
  cbn [rbind]. destruct (fv !! idx) as [f|] eqn:Hf; [|discriminate].
  cbn [rbind]. intros [= <- <- <-]. split; [|exact Hf].
  apply lookup_zip_with_Some in Hg as (e2 & e1 & -> & _ & _).
  apply abs_not_negative.
Qed.

Lemma plot_anti_crossing_gap_not_negative_witness :
  (1 <? 0)%float = false /\ [0; 0.5; 1]%float !! 1%nat = Some 0.5%float.
Proof.
  apply (plot_anti_crossing_gap_not_negative [0; 0.5; 1]%float
           (Array2 2 [[0; 4]; [1; 2]; [1; 3]]%float) 0 1 1 0.5 1).
  vm_compute. reflexivity.
Defined.

Lemma column_negative (t : array2) (k : Z) :
  - Z.of_nat (ncols t) <= k < Z.of_nat (ncols t) ->
  column t k = column t (k mod Z.of_nat (ncols t)).
Proof.
  intros Hk. destruct (Z.ltb_spec k 0) as [Hneg|Hpos].
  - assert (k mod Z.of_nat (ncols t) = k + Z.of_nat (ncols t)) as ->.
    { symmetry. apply (Z.mod_unique k _ (-1)); lia. }
    rewrite (column_valid t (k + _)) by lia. unfold column.
    replace (- Z.of_nat (ncols t) <=? k) with true
      by (symmetry; apply Z.leb_le; lia).
    replace (k <? Z.of_nat (ncols t)) with true
      by (symmetry; apply Z.ltb_lt; lia).
    by replace (k <? 0) with true by (symmetry; apply Z.ltb_lt; lia).
  - by rewrite Z.mod_small by lia.
Qed.

(** Negative level indices are not refused: as in NumPy, [-1] is the
    highest level, [-2] the one below, down to [-ncols]. *)
Theorem plot_anti_crossing_negative_levels fv t level1 level2 :
  - Z.of_nat (ncols t) <= level1 < Z.of_nat (ncols t) ->
  - Z.of_nat (ncols t) <= level2 < Z.of_nat (ncols t) ->
  plot_anti_crossing fv t level1 level2 =
  plot_anti_crossing fv t (level1 mod Z.of_nat (ncols t))
    (level2 mod Z.of_nat (ncols t)).
Proof.
  intros H1 H2. unfold plot_anti_crossing.
  rewrite <- !column_negative by assumption.
  pose proof (Z.mod_pos_bound level2 (Z.of_nat (ncols t))) as Hm.
  replace (Z.of_nat (ncols t) <=? level2) with false
    by (symmetry; apply Z.leb_gt; lia).
  by replace (Z.of_nat (ncols t) <=? level2 mod Z.of_nat (ncols t)) with false
    by (symmetry; apply Z.leb_gt; lia).
Qed.

Lemma plot_anti_crossing_negative_levels_witness :
  plot_anti_crossing [0; 0.5; 1]%float
    (Array2 2 [[0; 4]; [1; 2]; [1; 3]]%float) (-2) (-1)
  = plot_anti_crossing [0; 0.5; 1]%float
      (Array2 2 [[0; 4]; [1; 2]; [1; 3]]%float) 0 1.
Proof.
  apply (plot_anti_crossing_negative_levels [0; 0.5; 1]%float
           (Array2 2 [[0; 4]; [1; 2]; [1; 3]]%float) (-2) (-1)); cbn; lia.
Defined.

(** ** More on the sweep engine *)

Section EngineExtras.
Context {St : Type} {provider : Provider St}.

(** The loop leaves alone the rows past the samples it was given. *)
Lemma sweep_loop_later_rows c loop n fluxes : forall t i w t' w',
  sweep_loop c loop n t i fluxes w = (Ok t', w') ->
  forall k, (i + length fluxes <= k)%nat -> rows t' !! k = rows t !! k.
Proof.
  induction fluxes as [|f rest IH]; intros t i w t' w' Hrun k Hk.
  - cbn in Hrun. by injection Hrun as <- <-.
  - cbn [sweep_loop] in Hrun. unfold bind in Hrun.
    destruct (sweep_point_ok c loop n t i f w) as (t1 & w1 & Hpt & _ & _ & Hrows).
    rewrite Hpt in Hrun. cbn [length] in Hk.
    rewrite (IH _ _ _ _ _ Hrun) by lia. apply Hrows. lia.
Qed.

Lemma np_zeros_value n_points n_levels :
  0 <= n_points -> 0 <= n_levels ->
  np_zeros n_points n_levels
  = Ok (Array2 (Z.to_nat n_levels)
          (replicate (Z.to_nat n_points) (replicate (Z.to_nat n_levels) 0%float))).
Proof.
  intros Hp Hl. unfold np_zeros.
  replace (n_points <? 0) with false by (symmetry; apply Z.ltb_ge; lia).
  by replace (n_levels <? 0) with false by (symmetry; apply Z.ltb_ge; lia).
Qed.

Lemma sweep_try_success c loop n t i f w w_u r w_d :
  call_update (World (<[loop := f]> (loop_value w)) (solver w)) = (Ok tt, w_u) ->
  diagonalize_hamiltonian (Some c) n w_u = (Ok r, w_d) ->
  sweep_try c loop n t i f w
  = (Ok (store_prefix t i (Z.to_nat (Z.min n (Z.of_nat (length r.1)))) r.1), w_d).
Proof.
  intros Hupdate Hdiag. unfold sweep_try, bind. cbn [set_loop_value].
  by rewrite Hupdate, Hdiag.
Qed.

(** A sample whose update and diagonalization succeed gets, in the
    returned table, the first [n_levels] energies the solver gave, padded
    with zeros when it gave fewer. *)
Theorem flux_sweep_stores_successful_points c loop lo hi n_points n_levels w :
  valid_flux_range lo hi = true ->
  0 <= n_points ->
  0 <= n_levels ->
  find_loop c = Some loop ->
  exists grid zeros table w',
    linspace lo hi n_points = Ok grid /\
    np_zeros n_points n_levels = Ok zeros /\
    flux_sweep (Some c) (Some (lo, hi)) n_points n_levels w
      = (Ok (grid, table), w') /\
    forall i flux_val t_i w_i w_u r w_d,
      grid !! i = Some flux_val ->
      sweep_loop c loop n_levels zeros 0 (take i grid) w = (Ok t_i, w_i) ->
      call_update (World (<[loop := flux_val]> (loop_value w_i)) (solver w_i))
        = (Ok tt, w_u) ->
      diagonalize_hamiltonian (Some c) n_levels w_u = (Ok r, w_d) ->
      rows table !! i
        = Some (take (Z.to_nat n_levels) r.1
                ++ replicate (Z.to_nat n_levels - length r.1) 0%float).
Proof.
  intros Hrange Hp Hl Hloop.
  destruct (linspace_ok lo hi n_points Hp) as (grid & Hgrid & Hglen & _).
  pose proof (np_zeros_value n_points n_levels Hp Hl) as Hzeros.
  set (N := Z.to_nat n_levels) in *.
  set (zeros := Array2 N (replicate (Z.to_nat n_points) (replicate N 0%float)))
    in *.
  destruct (sweep_loop_ok c loop n_levels grid zeros 0%nat w)
    as (table & w' & Hrun & _).
  exists grid, zeros, table, w'. split; [exact Hgrid|]. split; [exact Hzeros|].
  split.
  { by rewrite (flux_sweep_valid c loop lo hi n_points n_levels grid zeros), Hrun. }
  intros i f t_i w_i w_u r w_d Hi Hpre Hupdate Hdiag.
  assert (Hlt : (i < length grid)%nat) by (eapply lookup_lt_Some; eauto).
  assert (Hrow : rows t_i !! i = Some (replicate N 0%float)).
  { rewrite (sweep_loop_later_rows _ _ _ _ _ _ _ _ _ Hpre)
      by (rewrite length_take; lia).
    subst zeros. cbn [rows]. apply lookup_replicate_2. lia. }
  rewrite <- (take_drop_middle grid i f Hi), sweep_loop_app, Hpre in Hrun.
  rewrite length_take in Hrun.
  replace (0 + i `min` length grid)%nat with i in Hrun by lia.
  cbn [sweep_loop] in Hrun. unfold bind in Hrun.
  rewrite sweep_point_unfold, (sweep_try_success _ _ _ _ _ _ _ _ _ _ Hupdate Hdiag)
    in Hrun.
  match type of Hrun with
  | sweep_loop _ _ _ ?t1 _ _ _ = _ =>
      destruct (sweep_loop_ok c loop n_levels (drop (Datatypes.S i) grid)
                  t1 (Datatypes.S i) w_d) as (t2 & w2 & Hrun2 & _ & Hrows2 & _)
  end.
  rewrite Hrun2 in Hrun. injection Hrun as <- <-.
  rewrite (Hrows2 i) by lia. cbn [store_prefix rows].
  rewrite list_lookup_alter_eq, Hrow. cbn [fmap option_fmap option_map]. f_equal.
  destruct (decide (length r.1 <= N)%nat) as [Hshort|Hlong].
  - replace (Z.to_nat (n_levels `min` Z.of_nat (length r.1))) with (length r.1)
      by lia.
    rewrite drop_replicate, !take_ge by lia. reflexivity.
  - replace (Z.to_nat (n_levels `min` Z.of_nat (length r.1))) with N by lia.
    rewrite drop_replicate. replace (N - length r.1)%nat with (N - N)%nat by lia.
    reflexivity.
Qed.

(** A sweep that raises has done nothing yet: the world is as it was,
    and the cause is one of the five checks made before the loop. No
    failure of the solver makes the sweep raise. *)
Theorem flux_sweep_raises_only_before_sweeping
    circuit lo hi n_points n_levels w e w' :
  flux_sweep circuit (Some (lo, hi)) n_points n_levels w = (Err e, w') ->
  w' = w /\
  exists cause,
    e = RuntimeError "Error during flux sweep" cause /\
    ((valid_flux_range lo hi = false /\
      cause = ValueError (InvalidFluxRange lo hi)) \/
     (n_points < 0 /\ cause = ValueError (NegativeSamples n_points)) \/
     (n_levels < 0 /\ cause = ValueError NegativeDimensions) \/
     (circuit = None /\ cause = AttributeError (NoneHasNoAttribute "elements")) \/
     ((exists c, circuit = Some c /\ find_loop c = None) /\
      cause = ValueError NoFluxLoop)).
Proof.
  unfold flux_sweep, flux_sweep_body.
  change (default _ (Some (lo, hi))) with (lo, hi). cbv beta iota.
  unfold try_except, bind, lift, raise, ret, any_exception.
  destruct (valid_flux_range lo hi) eqn:Hrange; cbn [negb];
    [|intros [= <- <-]; split; [reflexivity|]; eexists; split; [reflexivity|];
      by left].
  unfold linspace. destruct (Z.ltb_spec n_points 0) as [Hp|Hp].
  { intros [= <- <-]. split; [reflexivity|]. eexists. split; [reflexivity|].
    right; left. by split. }
  unfold np_zeros. replace (n_points <? 0) with false
    by (symmetry; apply Z.ltb_ge; lia).
  cbn [orb]. destruct (Z.ltb_spec n_levels 0) as [Hl|Hl].
  { intros [= <- <-]. split; [reflexivity|]. eexists. split; [reflexivity|].
    right; right; left. by split. }
  destruct circuit as [c|].
  2:{ intros [= <- <-]. split; [reflexivity|]. eexists. split; [reflexivity|].
      right; right; right; left. by split. }
  destruct (find_loop c) as [loop|] eqn:Hloop.
  2:{ intros [= <- <-]. split; [reflexivity|]. eexists. split; [reflexivity|].
      right; right; right; right. split; [by exists c|reflexivity]. }
  match goal with
  | |- context [sweep_loop c loop n_levels ?z 0 ?g w] =>
      destruct (sweep_loop_ok c loop n_levels g z 0%nat w)
        as (t & w1 & -> & _)
  end.
  discriminate.
Qed.

(** A diagonalization that returns was given a circuit, returns what
    [circuit.diag] returned, with at least one level, and has left every
    loop value as it was. *)
Theorem diagonalize_hamiltonian_success circuit n w r w' :
  diagonalize_hamiltonian circuit n w = (Ok r, w') ->
  is_Some circuit /\
  r.1 <> [] /\
  loop_value w' = loop_value w /\
  exists w1, ensure_trunc_nums w = (Ok tt, w1) /\ call_diag n w1 = (Ok r, w').
Proof.
  intros Hrun. pose proof (frames_diagonalize_hamiltonian circuit n w) as Hframe.
  rewrite Hrun in Hframe. cbn in Hframe.
  unfold diagonalize_hamiltonian, try_except, diagonalize_body, bind in Hrun.
  destruct circuit as [c|]; [|discriminate].
  destruct (ensure_trunc_nums w) as [[[]|e] w1]; [|discriminate].
  destruct (call_diag n w1) as [[r1|e] w2] eqn:Hdiag; [|discriminate].
  destruct (r1.1) eqn:Hlevels; [discriminate|].
  injection Hrun as <- <-. split; [by eexists|]. split; [by rewrite Hlevels|].
  split; [exact Hframe|]. by exists w1.
Qed.

(** The truncation fallback. An already configured circuit is not
    touched. Otherwise a [ValueError] of [set_trunc_nums([50])] leads to
    a second attempt with [[50, 50]] whose outcome is ignored, whereas
    any other exception of the first attempt ends the diagonalization,
    wrapped, without a second attempt. *)
Theorem truncation_fallback c n w :
  (trunc_is_set (solver w) = true -> ensure_trunc_nums w = (Ok tt, w)) /\
  (trunc_is_set (solver w) = false ->
   forall e s1,
     set_trunc_nums [50] (solver w) = (Err e, s1) ->
     (is_value_error e = true ->
      ensure_trunc_nums w
      = (Ok tt, World (loop_value w) (set_trunc_nums [50; 50] s1).2)) /\
     (is_value_error e = false ->
      diagonalize_hamiltonian (Some c) n w
      = (Err (RuntimeError "Error diagonalizing Hamiltonian" e),
         World (loop_value w) s1))).
Proof.
  split.
  - intros Hset. unfold ensure_trunc_nums, bind, call_trunc_is_set.
    by rewrite Hset.
  - intros Hset e s1 Hfirst.
    assert (Hcall : call_set_trunc_nums [50] w = (Err e, World (loop_value w) s1)).
    { unfold call_set_trunc_nums. by rewrite Hfirst. }
    split; intros He.
    + unfold ensure_trunc_nums, bind, call_trunc_is_set, try_except.
      rewrite Hset, Hcall, He. unfold call_set_trunc_nums. cbn [solver loop_value].
      by destruct (set_trunc_nums [50; 50] s1) as [[[]|e2] s2].
    + unfold diagonalize_hamiltonian, diagonalize_body, try_except, bind.
      unfold ensure_trunc_nums, bind, call_trunc_is_set, try_except.
      by rewrite Hset, Hcall, He.
Qed.

End EngineExtras.

Lemma flux_sweep_stores_successful_points_witness :
  exists grid zeros table w',
    linspace 0 1 3 = Ok grid /\
    np_zeros 3 5 = Ok zeros /\
    flux_sweep (provider := Demo.scripted []) (Some Demo.inverter)
      (Some (0, 1)%float) 3 5 Demo.initial = (Ok (grid, table), w') /\
    forall i flux_val t_i w_i w_u r w_d,
      grid !! i = Some flux_val ->
      sweep_loop (provider := Demo.scripted []) Demo.inverter 0%nat 5 zeros 0
        (take i grid) Demo.initial = (Ok t_i, w_i) ->
      call_update (provider := Demo.scripted [])
        (World (<[0%nat := flux_val]> (loop_value w_i)) (solver w_i))
        = (Ok tt, w_u) ->
      diagonalize_hamiltonian (provider := Demo.scripted [])
        (Some Demo.inverter) 5 w_u = (Ok r, w_d) ->
      rows table !! i
        = Some (take (Z.to_nat 5) r.1
                ++ replicate (Z.to_nat 5 - length r.1) 0%float).
Proof.
  apply (flux_sweep_stores_successful_points (provider := Demo.scripted [])
           Demo.inverter 0%nat 0%float 1%float 3 5 Demo.initial);
    [reflexivity | lia | lia | reflexivity].
Defined.

(** The scripted solver knows four levels: asked for five, every row of
    the sweep ends in one zero. *)
Example sweep_pads_short_spectra :
  (flux_sweep (provider := Demo.scripted []) (Some Demo.inverter)
     (Some (0, 1)%float) 3 5 Demo.initial).1
  = Ok ([0; 0.5; 1]%float,
        Array2 5 [[0; 1; 3; 6; 0]; [0.5; 1.5; 3.5; 6.5; 0]; [1; 2; 4; 7; 0]]%float).
Proof. vm_compute. reflexivity. Qed.

Lemma flux_sweep_raises_only_before_sweeping_witness :
  Demo.initial = Demo.initial /\
  exists cause,
    RuntimeError "Error during flux sweep" (ValueError NoFluxLoop)
    = RuntimeError "Error during flux sweep" cause /\
    ((valid_flux_range 0 1 = false /\
      cause = ValueError (InvalidFluxRange 0 1)) \/
     (5 < 0 /\ cause = ValueError (NegativeSamples 5)) \/
     (3 < 0 /\ cause = ValueError NegativeDimensions) \/
     (Some Scenarios.capacitor_only = None /\
      cause = AttributeError (NoneHasNoAttribute "elements")) \/
     ((exists c, Some Scenarios.capacitor_only = Some c /\ find_loop c = None) /\
      cause = ValueError NoFluxLoop)).
Proof.
  apply (flux_sweep_raises_only_before_sweeping (provider := Demo.scripted [])
           (Some Scenarios.capacitor_only) 0%float 1%float 5 3 Demo.initial).
  reflexivity.
Defined.

Lemma diagonalize_hamiltonian_success_witness :
  is_Some (Some Demo.inverter) /\
  ([0.5; 1.5; 3.5]%float, @nil (list float)).1 <> [] /\
  loop_value (World ({[ 0%nat := 0.5%float ]}) 1%nat) = loop_value Demo.initial /\
  exists w1,
    ensure_trunc_nums (provider := Demo.scripted []) Demo.initial = (Ok tt, w1) /\
    call_diag (provider := Demo.scripted []) 3 w1
    = (Ok ([0.5; 1.5; 3.5]%float, []), World ({[ 0%nat := 0.5%float ]}) 1%nat).
Proof.
  apply (diagonalize_hamiltonian_success (provider := Demo.scripted [])
           (Some Demo.inverter) 3 Demo.initial).
  vm_compute. reflexivity.
Defined.

Lemma truncation_fallback_witness :
  ensure_trunc_nums (provider := Scenarios.untruncated
                                   (ValueError (External "one mode expected")))
    Demo.initial
  = (Ok tt, World (loop_value Demo.initial) 2%nat) /\
  diagonalize_hamiltonian
    (provider := Scenarios.untruncated (TypeError (External "not a list")))
    (Some Demo.inverter) 3 Demo.initial
  = (Err (RuntimeError "Error diagonalizing Hamiltonian"
            (TypeError (External "not a list"))),
     World (loop_value Demo.initial) 1%nat).
Proof.
  split.
  - apply (proj2 (truncation_fallback
                    (provider := Scenarios.untruncated
                                   (ValueError (External "one mode expected")))
                    Demo.inverter 3 Demo.initial) eq_refl
             (ValueError (External "one mode expected")) 1%nat eq_refl).
    reflexivity.
  - apply (proj2 (truncation_fallback
                    (provider := Scenarios.untruncated
                                   (TypeError (External "not a list")))
                    Demo.inverter 3 Demo.initial) eq_refl
             (TypeError (External "not a list")) 1%nat eq_refl).
    reflexivity.
Defined.

(** ** The search for the flux loop *)

Lemma first_loop_instance_Some els l :
  first_loop_instance els = Some l -> LoopElem l ∈ els.
Proof.
  induction els as [|[l'|loops] els IH]; cbn; [discriminate| |].
  - intros [= <-]. apply list_elem_of_here.
  - intros Hl. apply list_elem_of_further. auto.
Qed.

Lemma first_loop_instance_None els :
  first_loop_instance els = None <-> forall l, LoopElem l ∉ els.
Proof.
  induction els as [|[l'|loops] els IH]; cbn.
  - split; [intros _ l Hl; by apply elem_of_nil in Hl|done].
  - split; [discriminate|]. intros Hno. destruct (Hno l'). apply list_elem_of_here.
  - rewrite IH. split; intros Hno l Hl.
    + apply elem_of_cons in Hl as [Hl|Hl]; [discriminate|]. by apply (Hno l).
    + apply (Hno l). by apply list_elem_of_further.
Qed.

Lemma first_attached_loop_Some els l :
  first_attached_loop els = Some l ->
  exists rest, Component (Some (l :: rest)) ∈ els.
Proof.
  induction els as [|e els IH]; cbn; [discriminate|].
  destruct e as [l'|[[|l' rest]|]].
  - intros Hl. destruct (IH Hl) as [rest Hin]. exists rest.
    by apply list_elem_of_further.
  - intros Hl. destruct (IH Hl) as [rest Hin]. exists rest.
    by apply list_elem_of_further.
  - intros [= <-]. exists rest. apply list_elem_of_here.
  - intros Hl. destruct (IH Hl) as [rest Hin]. exists rest.
    by apply list_elem_of_further.
Qed.

Lemma first_attached_loop_None els :
  first_attached_loop els = None <->
  forall l rest, Component (Some (l :: rest)) ∉ els.
Proof.
  induction els as [|e els IH].
  - split; [intros _ l rest Hl; by apply elem_of_nil in Hl|done].
  - destruct e as [l'|[[|l' rest']|]]; cbn; try rewrite IH.
    + split; intros Hno l rest Hl.
      * apply elem_of_cons in Hl as [Hl|Hl]; [discriminate|]. by apply (Hno l rest).
      * apply (Hno l rest). by apply list_elem_of_further.
    + split; intros Hno l rest Hl.
      * apply elem_of_cons in Hl as [Hl|Hl]; [discriminate|]. by apply (Hno l rest).
      * apply (Hno l rest). by apply list_elem_of_further.
    + split; [discriminate|]. intros Hno. destruct (Hno l' rest').
      apply list_elem_of_here.
    + split; intros Hno l rest Hl.
      * apply elem_of_cons in Hl as [Hl|Hl]; [discriminate|]. by apply (Hno l rest).
      * apply (Hno l rest). by apply list_elem_of_further.
Qed.

Lemma search_values_Some inner values l :
  search_values inner values = Some l ->
  exists els, els ∈ values /\ inner els = Some l.
Proof.
  induction values as [|els values IH]; cbn; [discriminate|].
  destruct (inner els) as [l'|] eqn:E.
  - intros [= <-]. exists els. split; [apply list_elem_of_here|exact E].
  - intros Hl. destruct (IH Hl) as (els' & Hin & Hels').
    exists els'. split; [by apply list_elem_of_further|exact Hels'].
Qed.

Lemma search_values_None inner values :
  search_values inner values = None <->
  forall els, els ∈ values -> inner els = None.
Proof.
  induction values as [|els values IH]; cbn.
  - split; [intros _ els Hin; by apply elem_of_nil in Hin|done].
  - destruct (inner els) as [l'|] eqn:E.
    + split; [discriminate|]. intros Hall.
      rewrite (Hall els) in E by apply list_elem_of_here. discriminate.
    + rewrite IH. split; intros Hall els' Hin.
      * apply elem_of_cons in Hin as [->|Hin]; [exact E|by apply Hall].
      * apply Hall. by apply list_elem_of_further.
Qed.

(** The loop [flux_sweep] drives is a loop of the circuit: a loop stored
    among the elements, or the first loop of an element. A loop stored
    among the elements wins over every attached one, wherever it stands.
    No loop is found exactly when no element gives access to any. *)
Theorem find_loop_characterised (c : Circuit) :
  (forall l,
      find_loop c = Some l ->
      exists els e,
        els ∈ map snd (elements c) /\ e ∈ els /\
        head (loops_of_element e) = Some l) /\
  (forall els l,
      els ∈ map snd (elements c) -> LoopElem l ∈ els ->
      exists els' l',
        find_loop c = Some l' /\
        els' ∈ map snd (elements c) /\ LoopElem l' ∈ els') /\
  (find_loop c = None <->
   forall els e,
     els ∈ map snd (elements c) -> e ∈ els -> loops_of_element e = []).
Proof.
  unfold find_loop. set (values := map snd (elements c)). split; [|split].
  - intros l.
    destruct (search_values first_loop_instance values) as [l1|] eqn:E1.
    + intros [= <-]. apply search_values_Some in E1 as (els & Hin & Hl).
      apply first_loop_instance_Some in Hl. by exists els, (LoopElem l1).
    + intros E2. apply search_values_Some in E2 as (els & Hin & Hl).
      apply first_attached_loop_Some in Hl as [rest Hl].
      by exists els, (Component (Some (l :: rest))).
  - intros els l Hin Hl.
    destruct (search_values first_loop_instance values) as [l1|] eqn:E1.
    + apply search_values_Some in E1 as (els' & Hin' & Hl').
      apply first_loop_instance_Some in Hl'. by exists els', l1.
    + exfalso. rewrite search_values_None in E1. specialize (E1 els Hin).
      rewrite first_loop_instance_None in E1. by apply (E1 l).
  - destruct (search_values first_loop_instance values) as [l1|] eqn:E1.
    + split; [discriminate|]. intros Hall.
      apply search_values_Some in E1 as (els & Hin & Hl).
      apply first_loop_instance_Some in Hl. specialize (Hall _ _ Hin Hl).
      discriminate.
    + rewrite search_values_None in E1.
      rewrite search_values_None. split.
      * intros E2 els e Hin He. specialize (E1 els Hin). specialize (E2 els Hin).
        rewrite first_loop_instance_None in E1.
        rewrite first_attached_loop_None in E2.
        destruct e as [l|[[|l rest]|]]; try reflexivity.
        -- by destruct (E1 l).
        -- by destruct (E2 l rest).
      * intros Hall els Hin. apply first_attached_loop_None. intros l rest Hl.
        specialize (Hall _ _ Hin Hl). discriminate.
Qed.

(** ** From a sweep to its anti-crossing *)

Section SweepThenPlot.
Context {St : Type} {provider : Provider St}.

(** The result of a valid sweep of at least one point fits
    [plot_anti_crossing] up to its minimum-gap marker (lines 223 to 238)
    for every pair of levels below [n_levels], whatever happened to the
    diagonalizations: the level check passes, both [ax.plot] get
    arguments of equal lengths, and the marker is computed, at an index
    of the grid. On the empty result of a sweep of zero points
    [np.argmin] raises its empty-sequence [ValueError]. What the drawing
    calls after the marker do is not stated. *)
Theorem sweep_then_anti_crossing c loop lo hi n_points n_levels level1 level2 w :
  valid_flux_range lo hi = true ->
  0 <= n_points ->
  0 <= level1 < n_levels ->
  0 <= level2 < n_levels ->
  find_loop c = Some loop ->
  exists grid table w',
    flux_sweep (Some c) (Some (lo, hi)) n_points n_levels w
      = (Ok (grid, table), w') /\
    (n_points = 0 ->
     plot_anti_crossing grid table level1 level2 = Err (ValueError EmptyArgmin)) /\
    (1 <= n_points ->
     exists min_gap flux k,
       plot_anti_crossing grid table level1 level2 = Ok (min_gap, flux, k) /\
       (k < Z.to_nat n_points)%nat /\
       grid !! k = Some flux).
Proof.
  intros Hrange Hp H1 H2 Hloop.
  destruct (linspace_ok lo hi n_points Hp) as (grid & Hgrid & Hglen & _).
  destruct (np_zeros_shape n_points n_levels) as (zeros & Hzeros & Hshape0);
    [lia..|].
  destruct (sweep_loop_ok c loop n_levels grid zeros 0%nat w)
    as (table & w' & Hrun & Hshape & _).
  destruct (Hshape _ Hshape0) as (Hc & Hr & _).
  exists grid, table, w'. split.
  { by rewrite (flux_sweep_valid c loop lo hi n_points n_levels grid zeros), Hrun. }
  assert (Hplot := plot_anti_crossing_valid grid table level1 level2).
  rewrite Hc, Hglen, Hr in Hplot.
  specialize (Hplot ltac:(lia) ltac:(lia) eq_refl). cbn zeta in Hplot.
  set (gap := gap_sequence table (Z.to_nat level1) (Z.to_nat level2)) in *.
  assert (Hgaplen : length gap = Z.to_nat n_points).
  { subst gap. unfold gap_sequence. by rewrite length_map. }
  split.
  - intros ->. rewrite Hplot. destruct gap; [reflexivity|discriminate].
  - intros Hpos. rewrite Hplot.
    assert (exists k, np_argmin gap = Ok k /\ (k < length gap)%nat) as (k & Hk & Hlt).
    { destruct (decide (no_nan gap)) as [Hn|Hn].
      - destruct (np_argmin_minimum gap) as (k & m & Hk & Hm & _);
          [destruct gap; [cbn in Hgaplen; lia|discriminate]|exact Hn|].
        exists k. split; [exact Hk|]. eapply lookup_lt_Some; eauto.
      - destruct (np_argmin_first_nan gap Hn) as (k & m & Hk & Hm & _).
        exists k. split; [exact Hk|]. eapply lookup_lt_Some; eauto. }
    rewrite Hk. cbn [rbind]. unfold getitem.
    destruct (lookup_lt_is_Some_2 gap k Hlt) as [g ->].
    destruct (lookup_lt_is_Some_2 grid k) as [f Hf]; [lia|].
    rewrite Hf. cbn [rbind]. exists g, f, k. split; [reflexivity|].
    split; [lia|exact Hf].
Qed.

End SweepThenPlot.

Lemma sweep_then_anti_crossing_witness :
  exists grid table w',
    flux_sweep (provider := Demo.scripted [0; 1; 2]%nat) (Some Demo.inverter)
      (Some (0, 1)%float) 3 2 Demo.initial = (Ok (grid, table), w') /\
    (3 = 0 ->
     plot_anti_crossing grid table 0 1 = Err (ValueError EmptyArgmin)) /\
    (1 <= 3 ->
     exists min_gap flux k,
       plot_anti_crossing grid table 0 1 = Ok (min_gap, flux, k) /\
       (k < Z.to_nat 3)%nat /\
       grid !! k = Some flux).
Proof.
  apply (sweep_then_anti_crossing (provider := Demo.scripted [0; 1; 2]%nat)
           Demo.inverter 0%nat 0%float 1%float 3 2 0 1 Demo.initial);
    [reflexivity | lia | lia | lia | reflexivity].
Defined.

(** ** The builders *)

Section BuilderProperties.
Context {St : Type} {provider : Provider St} {factory : Factory St}.

(** Each builder validates its parameters before anything is
    constructed, in a fixed order, and raises the error of the first
    check that fails whatever SQcircuit would have done. The coupling
    [J] of the ANB gate is not among the checks. *)
Theorem builders_validate_in_order :
  (forall Ej Ec flux ng e,
      first_failure [validate_energy Ej "Ej"; validate_energy Ec "Ec";
                     validate_flux flux] = Some e ->
      build_rql_inverter Ej Ec flux ng = Err e) /\
  (forall Ej1 Ej2 Ec J flux1 flux2 e,
      first_failure [validate_energy Ej1 "Ej1"; validate_energy Ej2 "Ej2";
                     validate_energy Ec "Ec"; validate_flux flux1;
                     validate_flux flux2] = Some e ->
      build_anb_gate Ej1 Ej2 Ec J flux1 flux2 = Err e) /\
  (forall Ej Ec El flux e,
      first_failure [validate_energy Ej "Ej"; validate_energy Ec "Ec";
                     validate_energy El "El"; validate_flux flux] = Some e ->
      build_rql_loop Ej Ec El flux = Err e).
Proof.
  split; [|split].
  - intros Ej Ec flux ng e. unfold build_rql_inverter. cbn [first_failure].
    destruct (validate_energy Ej "Ej"); [|by intros [= ->]].
    destruct (validate_energy Ec "Ec"); [|by intros [= ->]].
    destruct (validate_flux flux); [discriminate|by intros [= ->]].
  - intros Ej1 Ej2 Ec J flux1 flux2 e. unfold build_anb_gate. cbn [first_failure].
    destruct (validate_energy Ej1 "Ej1"); [|by intros [= ->]].
    destruct (validate_energy Ej2 "Ej2"); [|by intros [= ->]].
    destruct (validate_energy Ec "Ec"); [|by intros [= ->]].
    destruct (validate_flux flux1); [|by intros [= ->]].
    destruct (validate_flux flux2); [discriminate|by intros [= ->]].
  - intros Ej Ec El flux e. unfold build_rql_loop. cbn [first_failure].
    destruct (validate_energy Ej "Ej"); [|by intros [= ->]].
    destruct (validate_energy Ec "Ec"); [|by intros [= ->]].
    destruct (validate_energy El "El"); [|by intros [= ->]].
    destruct (validate_flux flux); [discriminate|by intros [= ->]].
Qed.

Lemma rbind_Ok {A B} (r : result A) (k : A -> result B) b :
  rbind r k = Ok b -> exists a, r = Ok a /\ k a = Ok b.
Proof. destruct r as [a|e]; [|discriminate]. intros Hk. by exists a. Qed.

Lemma construct_Ok p q : construct p = Ok q -> q = p.
Proof. unfold construct. destruct (part_error p); [discriminate|]. by intros [= <-]. Qed.

Lemma validate_energy_Ok energy name b :
  validate_energy energy name = Ok b -> (energy <=? 0)%float = false.
Proof. unfold validate_energy. by destruct (energy <=? 0)%float. Qed.

Lemma validate_flux_Ok flux b :
  validate_flux flux = Ok b ->
  (0 <=? flux)%float = true /\ (flux <=? 1)%float = true.
Proof.
  unfold validate_flux.
  destruct (0 <=? flux)%float, (flux <=? 1)%float; try discriminate. auto.
Qed.

Ltac invert_build H :=
  repeat match type of H with
         | rbind _ _ = Ok _ =>
             let a := fresh "a" in
             let Ha := fresh "Ha" in
             apply rbind_Ok in H as (a & Ha & H)
         end.

Lemma build_rql_inverter_Ok Ej Ec flux ng c w :
  build_rql_inverter Ej Ec flux ng = Ok (c, w) ->
  (Ej <=? 0)%float = false /\ (Ec <=? 0)%float = false /\
  (0 <=? flux)%float = true /\ (flux <=? 1)%float = true /\
  elements c = [((0, 1), [Component (Some [0%nat]); Component None])] /\
  find_loop c = Some 0%nat.
Proof.
  intros H. unfold build_rql_inverter in H. invert_build H.
  injection H as <- <-.
  apply validate_energy_Ok in Ha, Ha0. apply validate_flux_Ok in Ha1 as [? ?].
  assert (map element_of_part a2 = [Component (Some [0%nat]); Component None])
    as Hparts.
  { unfold rtry in Ha2.
    match type of Ha2 with
    | match ?r with _ => _ end = _ => destruct r as [ps|e] eqn:E
    end.
    - injection Ha2 as <-. invert_build E. injection E as <-.
      repeat match goal with
             | Hc : construct _ = Ok _ |- _ => apply construct_Ok in Hc; subst
             end.
      reflexivity.
    - destruct (is_type_error e); [|discriminate]. invert_build Ha2.
      injection Ha2 as <-.
      repeat match goal with
             | Hc : construct _ = Ok _ |- _ => apply construct_Ok in Hc; subst
             end.
      reflexivity. }
  unfold circuit_of_parts, find_loop. cbn [map elements fst snd].
  rewrite Hparts. by repeat split.
Qed.

Lemma build_anb_gate_Ok Ej1 Ej2 Ec J flux1 flux2 c w :
  build_anb_gate Ej1 Ej2 Ec J flux1 flux2 = Ok (c, w) ->
  (Ej1 <=? 0)%float = false /\ (Ej2 <=? 0)%float = false /\
  (Ec <=? 0)%float = false /\
  (0 <=? flux1)%float = true /\ (flux1 <=? 1)%float = true /\
  (0 <=? flux2)%float = true /\ (flux2 <=? 1)%float = true /\
  elements c = [((0, 1), [Component (Some [0%nat]); Component None]);
                ((0, 2), [Component (Some [1%nat]); Component None]);
                ((1, 2), [Component (Some [0%nat; 1%nat])])] /\
  find_loop c = Some 0%nat.
Proof.
  intros H. unfold build_anb_gate in H.
  invert_build H. injection H as <- <-.
  apply validate_energy_Ok in Ha, Ha0, Ha1.
  apply validate_flux_Ok in Ha2 as [? ?], Ha3 as [? ?].
  repeat match goal with
         | Hc : construct _ = Ok _ |- _ => apply construct_Ok in Hc; subst
         end.
  by repeat split.
Qed.

Lemma build_rql_loop_Ok Ej Ec El flux c w :
  build_rql_loop Ej Ec El flux = Ok (c, w) ->
  (Ej <=? 0)%float = false /\ (Ec <=? 0)%float = false /\
  (El <=? 0)%float = false /\
  (0 <=? flux)%float = true /\ (flux <=? 1)%float = true /\
  elements c = [((0, 1), [Component (Some [0%nat]); Component None;
                          Component (Some [0%nat])])] /\
  find_loop c = Some 0%nat.
Proof.
  intros H. unfold build_rql_loop in H.
  invert_build H. injection H as <- <-.
  apply validate_energy_Ok in Ha, Ha0, Ha1.
  apply validate_flux_Ok in Ha2 as [? ?].
  repeat match goal with
         | Hc : construct _ = Ok _ |- _ => apply construct_Ok in Hc; subst
         end.
  by repeat split.
Qed.

(** A circuit that a builder returns has passed every check of the
    builder: no energy is at most zero (each is positive, or NaN, which
    no comparison rejects) and every flux is within [0, 1]; the coupling
    [J] and the gate charge [ng] are bound by nothing. Its element
    dictionary is the one the builder wrote, also where the inverter
    fell back to constructors without [unit], and the loop search of
    [flux_sweep] finds in it the first loop of the first junction. What
    the loops hold is SQcircuit's affair and not stated. *)
Theorem built_circuits_passed_the_checks :
  (forall Ej Ec flux ng c w,
      build_rql_inverter Ej Ec flux ng = Ok (c, w) ->
      (Ej <=? 0)%float = false /\ (Ec <=? 0)%float = false /\
      (0 <=? flux)%float = true /\ (flux <=? 1)%float = true /\
      elements c = [((0, 1), [Component (Some [0%nat]); Component None])] /\
      find_loop c = Some 0%nat) /\
  (forall Ej1 Ej2 Ec J flux1 flux2 c w,
      build_anb_gate Ej1 Ej2 Ec J flux1 flux2 = Ok (c, w) ->
      (Ej1 <=? 0)%float = false /\ (Ej2 <=? 0)%float = false /\
      (Ec <=? 0)%float = false /\
      (0 <=? flux1)%float = true /\ (flux1 <=? 1)%float = true /\
      (0 <=? flux2)%float = true /\ (flux2 <=? 1)%float = true /\
      elements c = [((0, 1), [Component (Some [0%nat]); Component None]);
                    ((0, 2), [Component (Some [1%nat]); Component None]);
                    ((1, 2), [Component (Some [0%nat; 1%nat])])] /\
      find_loop c = Some 0%nat) /\
  (forall Ej Ec El flux c w,
      build_rql_loop Ej Ec El flux = Ok (c, w) ->
      (Ej <=? 0)%float = false /\ (Ec <=? 0)%float = false /\
      (El <=? 0)%float = false /\
      (0 <=? flux)%float = true /\ (flux <=? 1)%float = true /\
      elements c = [((0, 1), [Component (Some [0%nat]); Component None;
                              Component (Some [0%nat])])] /\
      find_loop c = Some 0%nat).
Proof.
  split; [|split].
  - intros Ej Ec flux ng c w. apply build_rql_inverter_Ok.
  - intros Ej1 Ej2 Ec J flux1 flux2 c w. apply build_anb_gate_Ok.
  - intros Ej Ec El flux c w. apply build_rql_loop_Ok.
Qed.

(** Sweeping an ANB gate drives its first loop only, the one of the
    first junction: after a valid sweep of at least one point that loop
    is at the last grid sample, and every other loop, the second loop of
    the gate among them, holds what it held when the sweep began. *)
Theorem anb_sweep_drives_first_loop_only
    Ej1 Ej2 Ec J flux1 flux2 c w lo hi n_points n_levels :
  build_anb_gate Ej1 Ej2 Ec J flux1 flux2 = Ok (c, w) ->
  valid_flux_range lo hi = true ->
  1 <= n_points ->
  0 <= n_levels ->
  exists grid table w',
    flux_sweep (Some c) (Some (lo, hi)) n_points n_levels w
      = (Ok (grid, table), w') /\
    is_Some (last grid) /\
    loop_value w' !! 0%nat = last grid /\
    loop_value w' !! 1%nat = loop_value w !! 1%nat /\
    (forall l, l <> 0%nat -> loop_value w' !! l = loop_value w !! l).
Proof.
  intros Hbuild Hrange Hp Hl.
  apply build_anb_gate_Ok in Hbuild
    as (_ & _ & _ & _ & _ & _ & _ & _ & Hfind).
  destruct (linspace_ok lo hi n_points) as (grid & Hgrid & Hglen & _); [lia|].
  destruct (np_zeros_shape n_points n_levels) as (zeros & Hzeros & _); [lia..|].
  destruct (sweep_loop_ok c 0%nat n_levels grid zeros 0%nat w)
    as (table & w' & Hrun & _ & _ & Hlv & Hother).
  assert (Hsome : is_Some (last grid)).
  { rewrite last_lookup. apply lookup_lt_is_Some_2. lia. }
  exists grid, table, w'. split.
  { by rewrite (flux_sweep_valid c 0%nat lo hi n_points n_levels grid zeros), Hrun. }
  split; [exact Hsome|]. split; [|split].
  - rewrite Hlv. by destruct Hsome as [f ->].
  - apply Hother. lia.
  - exact Hother.
Qed.

End BuilderProperties.

Lemma anb_sweep_drives_first_loop_only_witness :
  exists grid table w',
    flux_sweep (provider := Demo.scripted [])
      (Some (MkCircuit
               [((0, 1), [Component (Some [0%nat]); Component None]);
                ((0, 2), [Component (Some [1%nat]); Component None]);
                ((1, 2), [Component (Some [0%nat; 1%nat])])]))
      (Some (0, 1)%float) 5 3
      (World (<[ 1%nat := 0.75%float ]> {[ 0%nat := 0.25%float ]}) 0%nat)
      = (Ok (grid, table), w') /\
    is_Some (last grid) /\
    loop_value w' !! 0%nat = last grid /\
    loop_value w' !! 1%nat
    = loop_value
        (World (<[ 1%nat := 0.75%float ]> {[ 0%nat := 0.25%float ]}) 0%nat)
      !! 1%nat /\
    (forall l, l <> 0%nat ->
       loop_value w' !! l
       = loop_value
           (World (<[ 1%nat := 0.75%float ]> {[ 0%nat := 0.25%float ]}) 0%nat)
         !! l).
Proof.
  apply (anb_sweep_drives_first_loop_only (provider := Demo.scripted [])
           (factory := Scenarios.permissive)
           10 10 0.5 (-1) 0.25 0.75 _ _ 0 1 5 3);
    [vm_compute; reflexivity | reflexivity | lia | lia].
Defined.

(** With an SQcircuit that accepts everything, the inverter is built,
    a coupling [J = -1] does not stop the ANB gate from being built, and
    neither does an energy that is NaN stop the inverter. *)
Example builders_on_permissive_factory :
  build_rql_inverter (provider := Demo.scripted [])
    (factory := Scenarios.permissive) 10 0.5 0.5 0
  = Ok (Demo.inverter, Demo.initial) /\
  is_Some (match build_anb_gate (provider := Demo.scripted [])
                   (factory := Scenarios.permissive) 10 10 0.5 (-1) 0.25 0.75
           with Ok r => Some r | Err _ => None end) /\
  is_Some (match build_rql_inverter (provider := Demo.scripted [])
                   (factory := Scenarios.permissive) nan 0.5 0.5 0
           with Ok r => Some r | Err _ => None end) /\
  build_rql_inverter (provider := Demo.scripted [])
    (factory := Scenarios.permissive) (-10) 0.5 1.5 0
  = Err (ValueError (MustBePositive "Ej" (-10))).
Proof. vm_compute. repeat split; by eexists. Qed.

(** ** The plots of a sweep *)

Lemma plot_levels_ok fv t colors levels :
  length fv = length (rows t) ->
  Forall (fun i => (i < ncols t)%nat) levels ->
  Forall (fun i => forall cs, colors = Some cs -> (i < length cs)%nat) levels ->
  plot_levels fv t colors levels
  = Ok (map (level_line fv t (colour_of colors)) levels).
Proof.
  intros Hlen. induction levels as [|i rest IH]; intros Hl Hc; [reflexivity|].
  apply Forall_cons in Hl as [Hi Hl]. apply Forall_cons in Hc as [Hci Hc].
  cbn [plot_levels map]. rewrite column_valid by lia. cbn [rbind].
  rewrite Nat2Z.id.
  assert (match colors with
          | Some cs => c <~ getitem cs i ;; Ok (Some c)
          | None => Ok None
          end = Ok (colour_of colors i)) as ->.
  { destruct colors as [cs|]; [|reflexivity]. cbn [colour_of]. unfold getitem.
    destruct (lookup_lt_is_Some_2 cs i (Hci cs eq_refl)) as [c Hc'].
    rewrite Hc'. cbn [rbind]. by rewrite (list_lookup_total_correct _ _ _ Hc'). }
  cbn [rbind]. unfold ax_plot. rewrite length_map.
  replace (length fv =? length (rows t))%nat with true
    by (symmetry; apply Nat.eqb_eq; exact Hlen).
  cbn [rbind]. rewrite (IH Hl Hc). reflexivity.
Qed.

Lemma plot_flux_sweep_cases fv t :
  (length fv = length (rows t) ->
   exists colors,
     linspace 0 1 (Z.of_nat (ncols t)) = Ok colors /\
     plot_flux_sweep fv t
     = Ok (map (level_line fv t (colour_of (Some colors))) (seq 0 (ncols t)))) /\
  (length fv <> length (rows t) -> (0 < ncols t)%nat ->
   plot_flux_sweep fv t
   = Err (ValueError (External "x and y must have same first dimension"))) /\
  (ncols t = 0%nat -> plot_flux_sweep fv t = Ok []).
Proof.
  destruct (linspace_ok 0 1 (Z.of_nat (ncols t))) as (colors & Hcol & Hclen & _);
    [lia|].
  rewrite Nat2Z.id in Hclen.
  unfold plot_flux_sweep. rewrite Hcol. cbn [rbind]. split; [|split].
  - intros Hlen. exists colors. split; [reflexivity|].
    apply plot_levels_ok; [exact Hlen| |].
    + apply Forall_forall. intros i Hi. apply elem_of_seq in Hi. lia.
    + apply Forall_forall. intros i Hi cs [= <-]. apply elem_of_seq in Hi. lia.
  - intros Hlen Hpos. destruct (ncols t) as [|n] eqn:Hn; [lia|].
    cbn [seq plot_levels]. rewrite column_valid by lia. cbn [rbind].
    unfold getitem. destruct colors as [|c0 colors]; [discriminate|].
    cbn [lookup list_lookup rbind]. unfold ax_plot. rewrite length_map.
    replace (length fv =? length (rows t))%nat with false
      by (symmetry; apply Nat.eqb_neq; exact Hlen).
    reflexivity.
  - intros ->. reflexivity.
Qed.

(** The loop of [plot_flux_sweep] (lines 174 to 179) hands [ax.plot]
    one line for every level of the table, in order, each one the whole
    column against the flux values. It gets through exactly when the
    table has as many rows as there are flux values, or no column;
    otherwise its first [ax.plot] raises the [ValueError] for arguments
    of different lengths, the only exception of the loop. What the
    figure-level calls after the loop do is not stated. *)
Theorem plot_flux_sweep_draws_every_level fv t :
  ((exists lines, plot_flux_sweep fv t = Ok lines) <->
   length fv = length (rows t) \/ ncols t = 0%nat) /\
  (forall e, plot_flux_sweep fv t = Err e ->
   e = ValueError (External "x and y must have same first dimension")) /\
  (forall lines, plot_flux_sweep fv t = Ok lines ->
   length lines = ncols t /\
   forall i, (i < ncols t)%nat ->
     exists c,
       lines !! i
       = Some (Line fv (map (fun row => row !!! i) (rows t)) (Some i) (Some c))).
Proof.
  destruct (plot_flux_sweep_cases fv t) as (Hsame & Hdiff & Hzero).
  destruct (decide (ncols t = 0%nat)) as [Hz|Hnz].
  { rewrite (Hzero Hz). split; [|split].
    - split; [by right|by eexists].
    - discriminate.
    - intros lines [= <-]. split; [by rewrite Hz|]. intros i Hi. lia. }
  destruct (decide (length fv = length (rows t))) as [Hlen|Hlen].
  - destruct (Hsame Hlen) as (colors & _ & ->). split; [|split].
    + split; [by left|by eexists].
    + discriminate.
    + intros lines [= <-]. rewrite length_map, length_seq.
      split; [reflexivity|]. intros i Hi.
      exists (colors !!! i). rewrite list_lookup_fmap, lookup_seq_lt by exact Hi.
      reflexivity.
  - rewrite (Hdiff Hlen) by lia. split; [|split].
    + split; [intros [lines ?]; discriminate|intros [?|?]; contradiction].
    + by intros e [= <-].
    + discriminate.
Qed.

(** With two dimensions and flux values given, [plot_energy_spectrum]
    draws the first five of the lines [plot_flux_sweep] draws, without
    their colours: a sixth level and all above are left out. *)
Theorem plot_energy_spectrum_first_five fv t lines :
  plot_flux_sweep fv t = Ok lines ->
  plot_energy_spectrum (TwoD t) (Some fv)
  = Ok (map (fun l => Line (line_x l) (line_y l) (line_level l) None)
          (take 5 lines)).
Proof.
  intros Hplot. unfold plot_energy_spectrum. cbn [default].
  destruct (plot_flux_sweep_cases fv t) as (Hsame & Hdiff & Hzero).
  destruct (decide (ncols t = 0%nat)) as [Hz|Hnz].
  { rewrite Hzero in Hplot by exact Hz. injection Hplot as <-. by rewrite Hz. }
  destruct (decide (length fv = length (rows t))) as [Hlen|Hlen];
    [|rewrite Hdiff in Hplot by (exact Hlen || lia); discriminate].
  destruct (Hsame Hlen) as (colors & _ & Heq). rewrite Heq in Hplot.
  injection Hplot as <-.
  rewrite plot_levels_ok; [|exact Hlen| |].
  - f_equal. rewrite <- fmap_take, take_seq, <- list_fmap_compose.
    reflexivity.
  - apply Forall_forall. intros i Hi. apply elem_of_seq in Hi. lia.
  - apply Forall_forall. intros i Hi cs. discriminate.
Qed.

Lemma plot_energy_spectrum_first_five_witness :
  plot_energy_spectrum (TwoD Scenarios.six_levels) (Some [0; 1]%float)
  = Ok (map (fun l => Line (line_x l) (line_y l) (line_level l) None)
          (take 5 (match plot_flux_sweep [0; 1]%float Scenarios.six_levels with
                   | Ok lines => lines
                   | Err _ => []
                   end))).
Proof.
  apply (plot_energy_spectrum_first_five [0; 1]%float Scenarios.six_levels).
  vm_compute. reflexivity.
Defined.

(** Six levels swept, six lines in the flux plot, five in the spectrum
    plot. *)
Example six_levels_five_lines :
  length <$> (match plot_flux_sweep [0; 1]%float Scenarios.six_levels with
              | Ok lines => Some lines | Err _ => None end) = Some 6%nat /\
  length <$> (match plot_energy_spectrum (TwoD Scenarios.six_levels)
                      (Some [0; 1]%float) with
              | Ok lines => Some lines | Err _ => None end) = Some 5%nat.
Proof. vm_compute. by split. Qed.

Section SweepThenDraw.
Context {St : Type} {provider : Provider St}.

Lemma sweep_result_plots c loop lo hi n_points n_levels w :
  valid_flux_range lo hi = true ->
  0 <= n_points ->
  0 <= n_levels ->
  find_loop c = Some loop ->
  exists grid table w' lines,
    flux_sweep (Some c) (Some (lo, hi)) n_points n_levels w
      = (Ok (grid, table), w') /\
    plot_flux_sweep grid table = Ok lines /\
    length lines = Z.to_nat n_levels /\
    Forall (fun l => line_x l = grid /\
                     length (line_y l) = Z.to_nat n_points) lines.
Proof.
  intros Hrange Hp Hl Hloop.
  destruct (linspace_ok lo hi n_points Hp) as (grid & Hgrid & Hglen & _).
  destruct (np_zeros_shape n_points n_levels) as (zeros & Hzeros & Hshape0);
    [lia..|].
  destruct (sweep_loop_ok c loop n_levels grid zeros 0%nat w)
    as (table & w' & Hrun & Hshape & _).
  destruct (Hshape _ Hshape0) as (Hc & Hr & _).
  destruct (plot_flux_sweep_cases grid table) as (Hsame & _).
  destruct Hsame as (colors & _ & Hplot); [lia|].
  exists grid, table, w'. eexists. split.
  { by rewrite (flux_sweep_valid c loop lo hi n_points n_levels grid zeros), Hrun. }
  split; [exact Hplot|]. split.
  - by rewrite length_map, length_seq.
  - apply Forall_fmap, Forall_forall. intros i _. cbn. split; [reflexivity|].
    rewrite length_map. lia.
Qed.

(** The result of every valid sweep fits the loop of [plot_flux_sweep]
    (lines 174 to 179), whatever happened to the diagonalizations: every
    [ax.plot] gets the grid and a column of [n_points] values, so that
    none refuses its arguments, and one line is handed over for each of
    the [n_levels] levels. What the figure-level calls after the loop do
    with the values is not stated. *)
Theorem sweep_then_plot_flux_sweep c loop lo hi n_points n_levels w :
  valid_flux_range lo hi = true ->
  0 <= n_points ->
  0 <= n_levels ->
  find_loop c = Some loop ->
  exists grid table w' lines,
    flux_sweep (Some c) (Some (lo, hi)) n_points n_levels w
      = (Ok (grid, table), w') /\
    plot_flux_sweep grid table = Ok lines /\
    length lines = Z.to_nat n_levels /\
    Forall (fun l => line_x l = grid /\
                     length (line_y l) = Z.to_nat n_points) lines.
Proof. apply sweep_result_plots. Qed.

End SweepThenDraw.

Lemma sweep_then_plot_flux_sweep_witness :
  exists grid table w' lines,
    flux_sweep (provider := Demo.scripted [1]%nat) (Some Demo.inverter)
      (Some (0, 1)%float) 4 3 Demo.initial = (Ok (grid, table), w') /\
    plot_flux_sweep grid table = Ok lines /\
    length lines = Z.to_nat 3 /\
    Forall (fun l => line_x l = grid /\ length (line_y l) = Z.to_nat 4) lines.
Proof.
  apply (sweep_then_plot_flux_sweep (provider := Demo.scripted [1]%nat)
           Demo.inverter 0%nat 0 1 4 3 Demo.initial);
    [reflexivity | lia | lia | reflexivity].
Defined.

(** ** Validation of a parameter dictionary *)

Lemma validate_value_None key v :
  validate_value key v = None <->
  exists x, v = PyFloat x /\
    (is_flux_key key = true ->
     (0 <=? x)%float = true /\ (x <=? 1)%float = true) /\
    (is_flux_key key = false -> is_energy_key key = true ->
     (x <=? 0)%float = false).
Proof.
  unfold validate_value, is_flux_key, is_energy_key.
  destruct v as [|x].
  { split; [discriminate|]. intros (x & Hx & _). discriminate. }
  destruct (contains "flux" (lower key)).
  - destruct (0 <=? x)%float eqn:H0, (x <=? 1)%float eqn:H1; cbn; split;
      try discriminate;
      try (intros _; exists x; split; [reflexivity|];
           split; [by intros _|discriminate]);
      intros (y & [= <-] & H & _); destruct (H eq_refl); congruence.
  - destruct (contains "energy" (lower key) || contains "ej" (lower key)
              || contains "ec" (lower key)).
    + destruct (x <=? 0)%float eqn:Hx;
        (split;
         [ first [ discriminate
                 | intros _; exists x; (split; [reflexivity|]);
                   split; [discriminate|by intros _ _] ]
         | intros (y & [= <-] & _ & H); specialize (H eq_refl eq_refl);
           congruence ]).
    + split; [|reflexivity]. intros _. exists x. split; [reflexivity|].
      split; [discriminate|]. intros _. discriminate.
Qed.

Lemma validate_value_not_KeyError key v k :
  validate_value key v <> Some (KeyError k).
Proof.
  unfold validate_value. destruct v as [|x]; [discriminate|].
  repeat match goal with |- context [if ?b then _ else _] => destruct b end;
    discriminate.
Qed.

Lemma validate_each_accepts params keys :
  validate_each params keys = inr true <-> Forall (acceptable params) keys.
Proof.
  induction keys as [|key rest IH]; cbn [validate_each].
  { split; [constructor|reflexivity]. }
  rewrite Forall_cons, <- IH. unfold acceptable.
  destruct (params !! key) as [v|] eqn:Hv.
  - destruct (validate_value key v) as [e|] eqn:He.
    + split; [discriminate|]. intros [(x & [= ->] & Hx) _].
      assert (validate_value key (PyFloat x) = None) as Hn
        by (apply validate_value_None; by exists x).
      congruence.
    + apply validate_value_None in He as (x & -> & Hx).
      split; [|by intros [_ ?]]. intros ?. split; [by exists x|done].
  - split; [discriminate|]. intros [(x & Hx & _) _]. discriminate.
Qed.

Lemma validate_each_returns params keys b :
  validate_each params keys = inr b -> b = true.
Proof.
  induction keys as [|key rest IH]; cbn [validate_each]; [by intros [= <-]|].
  destruct (params !! key) as [v|]; [|discriminate].
  destruct (validate_value key v); [discriminate|exact IH].
Qed.

Lemma validate_each_present params keys k :
  Forall (fun key => is_Some (params !! key)) keys ->
  validate_each params keys <> inl (KeyError k).
Proof.
  induction keys as [|key rest IH]; cbn [validate_each]; [discriminate|].
  intros [[v Hv] Hrest]%Forall_cons. rewrite Hv.
  destruct (validate_value key v) as [e|] eqn:He; [|by apply IH].
  intros [= ->]. by apply validate_value_not_KeyError in He.
Qed.

Lemma missing_keys_nil (params : gmap string pyval) keys :
  List.filter (fun key => bool_decide (params !! key = None)) keys = [] <->
  Forall (fun key => is_Some (params !! key)) keys.
Proof.
  induction keys as [|key rest IH]; cbn [List.filter].
  { split; [constructor|reflexivity]. }
  rewrite Forall_cons, <- IH. destruct (params !! key) as [v|] eqn:Hv.
  - rewrite bool_decide_eq_false_2 by discriminate.
    split; [by split|by intros [_ ?]].
  - rewrite bool_decide_eq_true_2 by reflexivity.
    split; [discriminate|]. intros [[? Hx] _]. discriminate.
Qed.

Lemma acceptable_present params keys :
  Forall (acceptable params) keys ->
  Forall (fun key => is_Some (params !! key)) keys.
Proof.
  intros H. eapply Forall_impl; [exact H|]. intros key (x & Hx & _). by eexists.
Qed.

Lemma validate_parameters_inr params required_keys :
  validate_parameters params required_keys = inr true <->
  Forall (acceptable params) required_keys.
Proof.
  unfold validate_parameters.
  destruct (List.filter _ required_keys) as [|k ks] eqn:Hmiss.
  - apply validate_each_accepts.
  - split; [discriminate|]. intros Hacc%acceptable_present.
    apply missing_keys_nil in Hacc. congruence.
Qed.

(** [validate_parameters] returns [True] exactly when every required key
    holds a float that suits its name: within [0, 1] when the
    lower-cased name contains flux; otherwise not at most zero when it
    contains energy, ej or ec; anything under any other name. So NaN is
    refused under a flux name and accepted under every other name,
    energy names included. The function never returns [False], and the
    lookups of its loop never raise [KeyError]. *)
Theorem validate_parameters_accepts params required_keys :
  (validate_parameters params required_keys = inr true <->
   Forall (acceptable params) required_keys) /\
  (forall b, validate_parameters params required_keys = inr b -> b = true) /\
  (forall key, validate_parameters params required_keys <> inl (KeyError key)) /\
  (forall key, is_flux_key key = false ->
     validate_parameters {[ key := PyFloat nan ]} [key] = inr true) /\
  (forall key, is_flux_key key = true ->
     validate_parameters {[ key := PyFloat nan ]} [key]
     = inl (NotBetween0And1 key nan)).
Proof.
  split; [apply validate_parameters_inr|]. split; [|split; [|split]].
  - unfold validate_parameters.
    destruct (List.filter _ required_keys) as [|k ks] eqn:Hmiss;
      [apply validate_each_returns|discriminate].
  - unfold validate_parameters.
    destruct (List.filter _ required_keys) as [|k ks] eqn:Hmiss;
      [|discriminate].
    intros key. apply validate_each_present, missing_keys_nil, Hmiss.
  - intros key Hk. apply validate_parameters_inr, Forall_singleton.
    exists nan. rewrite lookup_singleton_eq. split; [reflexivity|].
    split; [congruence|]. by intros _ _.
  - intros key Hk. unfold validate_parameters. cbn [List.filter].
    rewrite lookup_singleton_eq, bool_decide_eq_false_2 by discriminate.
    cbn [validate_each]. rewrite lookup_singleton_eq.
    unfold validate_value. unfold is_flux_key in Hk. rewrite Hk. reflexivity.
Qed.

(** Only the required keys are read: two dictionaries that agree on them
    are judged alike, so a parameter that is not required is never
    validated, whatever its name and value. *)
Theorem validate_parameters_reads_required_only params params' required_keys :
  (forall key, key ∈ required_keys -> params !! key = params' !! key) ->
  validate_parameters params required_keys
  = validate_parameters params' required_keys.
Proof.
  intros Hagree. unfold validate_parameters.
  assert (List.filter (fun key => bool_decide (params !! key = None)) required_keys
          = List.filter (fun key => bool_decide (params' !! key = None)) required_keys)
    as ->.
  { apply List.filter_ext_in. intros key Hin.
    by rewrite Hagree by (by apply list_elem_of_In). }
  assert (validate_each params required_keys = validate_each params' required_keys)
    as ->; [|reflexivity].
  induction required_keys as [|key rest IH]; [reflexivity|].
  cbn [validate_each]. rewrite <- Hagree by left.
  rewrite IH; [reflexivity|]. intros k Hk. apply Hagree. by right.
Qed.

(** Under a flux name the dictionary check accepts what
    [circuit_builder.validate_flux] accepts, under an energy name what
    [validate_energy] accepts; so the inverter's parameters pass under
    their own names exactly when the builder's three checks pass. *)
Theorem validate_parameters_agrees_with_builder_checks :
  (forall key x, is_flux_key key = true ->
     validate_parameters {[ key := PyFloat x ]} [key] = inr true <->
     validate_flux x = Ok true) /\
  (forall key x, is_flux_key key = false -> is_energy_key key = true ->
     validate_parameters {[ key := PyFloat x ]} [key] = inr true <->
     validate_energy x key = Ok true) /\
  (forall Ej Ec flux,
     validate_parameters
       (<[ "flux" := PyFloat flux ]>
          (<[ "Ec" := PyFloat Ec ]> {[ "Ej" := PyFloat Ej ]}))
       ["Ej"; "Ec"; "flux"] = inr true <->
     first_failure [validate_energy Ej "Ej"; validate_energy Ec "Ec";
                    validate_flux flux] = None).
Proof.
  split; [|split].
  - intros key x Hk. rewrite validate_parameters_inr, Forall_singleton.
    unfold acceptable, validate_flux. rewrite lookup_singleton_eq, Hk.
    split.
    + intros (y & [= <-] & H & _). destruct (H eq_refl) as [-> ->]. reflexivity.
    + intros H. exists x. split; [reflexivity|]. split; [|discriminate].
      intros _. by destruct (0 <=? x)%float, (x <=? 1)%float.
  - intros key x Hf Hk. rewrite validate_parameters_inr, Forall_singleton.
    unfold acceptable, validate_energy. rewrite lookup_singleton_eq, Hf, Hk.
    split.
    + intros (y & [= <-] & _ & H). by rewrite (H eq_refl eq_refl).
    + intros H. exists x. split; [reflexivity|]. split; [discriminate|].
      intros _ _. by destruct (x <=? 0)%float.
  - intros Ej Ec flux. rewrite validate_parameters_inr.
    rewrite !Forall_cons, Forall_nil. unfold acceptable.
    rewrite lookup_insert_ne, lookup_insert_ne, lookup_singleton_eq by done.
    rewrite lookup_insert_ne, lookup_insert_eq by done.
    rewrite lookup_insert_eq.
    change (is_flux_key "Ej") with false. change (is_energy_key "Ej") with true.
    change (is_flux_key "Ec") with false. change (is_energy_key "Ec") with true.
    change (is_flux_key "flux") with true.
    unfold validate_energy, validate_flux. cbn [first_failure].
    split.
    + intros ((a & [= <-] & _ & Ha) & (b & [= <-] & _ & Hb)
              & (c & [= <-] & Hc & _) & _).
      rewrite (Ha eq_refl eq_refl), (Hb eq_refl eq_refl).
      destruct (Hc eq_refl) as [-> ->]. reflexivity.
    + intros H.
      destruct (Ej <=? 0)%float eqn:HEj; [discriminate|].
      destruct (Ec <=? 0)%float eqn:HEc; [discriminate|].
      destruct (0 <=? flux)%float eqn:H0, (flux <=? 1)%float eqn:H1;
        try discriminate.
      split; [|split; [|split; [|done]]]; eexists; (split; [reflexivity|]);
        by repeat split.
Qed.

Lemma validate_parameters_reads_required_only_witness :
  validate_parameters {[ "flux" := PyFloat 0.5 ]} ["flux"]
  = validate_parameters
      (<[ "Ej" := PyFloat (-1) ]> {[ "flux" := PyFloat 0.5 ]}) ["flux"].
Proof.
  apply (validate_parameters_reads_required_only
           {[ "flux" := PyFloat 0.5 ]}
           (<[ "Ej" := PyFloat (-1) ]> {[ "flux" := PyFloat 0.5 ]}) ["flux"]).
  intros key Hkey. apply list_elem_of_singleton in Hkey as ->.
  vm_compute. reflexivity.
Defined.

(** Missing keys are reported together and before any value is looked
    at; a name with flux in it is checked as a flux even where it also
    holds an energy word; and ec inside any name makes it an energy. *)
Example validate_parameters_on_examples :
  validate_parameters {[ "Ej" := PyFloat (-1) ]} ["Ej"; "Ec"; "flux"]
  = inl (MissingParameters ["Ec"; "flux"]) /\
  validate_parameters {[ "Flux_Energy" := PyFloat 5 ]} ["Flux_Energy"]
  = inl (NotBetween0And1 "Flux_Energy" 5) /\
  validate_parameters {[ "n_sectors" := PyFloat 0 ]} ["n_sectors"]
  = inl (NotPositive "n_sectors" 0) /\
  validate_parameters {[ "n_points" := PyFloat 0 ]} ["n_points"] = inr true /\
  validate_parameters {[ "Ej" := PyNone ]} ["Ej"] = inl (CannotBeNone "Ej").
Proof. vm_compute. by repeat split. Qed.

(** ** The coupling estimate *)

Section CouplingProperties.
Context {St : Type} {provider : Provider St}.

Lemma diagonalize_hamiltonian_result circuit n w :
  match (diagonalize_hamiltonian circuit n w).1 with
  | Ok r => r.1 <> []
  | Err e => exists cause, e = RuntimeError "Error diagonalizing Hamiltonian" cause
  end.
Proof.
  unfold diagonalize_hamiltonian, try_except, any_exception.
  destruct (diagonalize_body circuit n w) as [[r|e] w'] eqn:Hbody;
    [|by eexists].
  cbn [fst]. unfold diagonalize_body, bind in Hbody.
  destruct circuit as [c|]; [|discriminate].
  destruct (ensure_trunc_nums w) as [[[]|e] w1]; [|discriminate].
  destruct (call_diag n w1) as [[r1|e] w2]; [|discriminate].
  destruct (r1.1) eqn:Hlevels; [discriminate|].
  injection Hbody as <- <-. by rewrite Hlevels.
Qed.

(** On [None] the store version raises what [diagonalize_hamiltonian]
    raises, which leaves every world as it is. *)
Lemma diagonalize_object_None n h w :
  (diagonalize_object None n h).1 = (diagonalize_hamiltonian None n w).1 /\
  (diagonalize_hamiltonian None n w).2 = w.
Proof. by split. Qed.

(** A diagonalization through the store changes no loop value, touches
    no object but its argument, returns at least one level and raises
    nothing but the wrapped error. *)
Lemma diagonalize_object_result circuit n h :
  (forall obj, loop_value ((diagonalize_object circuit n h).2 obj)
               = loop_value (h obj)) /\
  (forall obj, (forall c, circuit <> Some (obj, c)) ->
               (diagonalize_object circuit n h).2 obj = h obj) /\
  match (diagonalize_object circuit n h).1 with
  | Ok r => r.1 <> []
  | Err e => exists cause, e = RuntimeError "Error diagonalizing Hamiltonian" cause
  end.
Proof.
  destruct circuit as [[r c]|]; cbn [diagonalize_object];
    [|split; [done|split; [done|by eexists]]].
  unfold on_object.
  pose proof (diagonalize_hamiltonian_result (Some c) n (h r)) as Hres.
  pose proof (frames_diagonalize_hamiltonian (Some c) n (h r)) as Hframe.
  destruct (diagonalize_hamiltonian (Some c) n (h r)) as [x w'].
  cbn [fst snd] in *. split; [|split; [|exact Hres]].
  - intros obj. destruct (decide (obj = r)) as [->|]; [exact Hframe|reflexivity].
  - intros obj Hobj. destruct (decide (obj = r)) as [->|]; [|reflexivity].
    by destruct (Hobj c).
Qed.

(** The coupling estimate never changes a flux and never touches a
    circuit other than its two arguments, whether it returns or raises;
    and all it ever raises is the wrapped error of a diagonalization:
    reading the two ground states cannot fail. *)
Theorem coupling_strength_touches_only_its_arguments
    circuit1 circuit2 coupling_element h r h' :
  calculate_coupling_strength circuit1 circuit2 coupling_element h = (r, h') ->
  (forall obj, loop_value (h' obj) = loop_value (h obj)) /\
  (forall obj, (forall c, circuit1 <> Some (obj, c)) ->
               (forall c, circuit2 <> Some (obj, c)) -> h' obj = h obj) /\
  (forall e, r = Err e ->
   exists cause, e = RuntimeError "Error diagonalizing Hamiltonian" cause).
Proof.
  unfold calculate_coupling_strength.
  destruct (diagonalize_object_result circuit1 2 h) as (Hl1 & Ho1 & Hr1).
  destruct (diagonalize_object circuit1 2 h) as [[[E1 v1]|e1] h1];
    cbn [fst snd] in *.
  2:{ intros [= <- <-]. split; [exact Hl1|]. split; [by auto|].
      by intros e [= <-]. }
  destruct (diagonalize_object_result circuit2 2 h1) as (Hl2 & Ho2 & Hr2).
  destruct (diagonalize_object circuit2 2 h1) as [[[E2 v2]|e2] h2];
    cbn [fst snd] in *.
  2:{ intros [= <- <-]. split; [intros obj; by rewrite Hl2|].
      split; [intros obj H1 H2; by rewrite Ho2, Ho1|]. by intros e [= <-]. }
  intros [= <- <-]. split; [intros obj; by rewrite Hl2|].
  split; [intros obj H1 H2; by rewrite Ho2, Ho1|].
  destruct E1 as [|e1 E1]; [done|]. destruct E2 as [|e2 E2]; [done|].
  discriminate.
Qed.

(** When the estimate returns, both diagonalizations returned, the
    second in the store the first one left, and the estimate is a tenth
    of the distance of the two ground states, or exactly [0.1] once that
    distance is above one ([0x1.999999999999ap-4] is the float [0.1]). *)
Theorem coupling_strength_value circuit1 circuit2 coupling_element h g h' :
  calculate_coupling_strength circuit1 circuit2 coupling_element h = (Ok g, h') ->
  exists E1 v1 h1 E2 v2 e1 e2,
    diagonalize_object circuit1 2 h = (Ok (E1, v1), h1) /\
    diagonalize_object circuit2 2 h1 = (Ok (E2, v2), h') /\
    E1 !! 0%nat = Some e1 /\
    E2 !! 0%nat = Some e2 /\
    g = (if 1 <? PrimFloat.abs (e1 - e2)
         then 0x1.999999999999ap-4
         else 0x1.999999999999ap-4 * PrimFloat.abs (e1 - e2))%float.
Proof.
  unfold calculate_coupling_strength.
  destruct (diagonalize_object circuit1 2 h) as [[[E1 v1]|e1] h1] eqn:H1;
    [|discriminate].
  destruct (diagonalize_object circuit2 2 h1) as [[[E2 v2]|e2] h2] eqn:H2;
    [|discriminate].
  destruct E1 as [|e1 E1]; [discriminate|].
  destruct E2 as [|e2 E2]; [discriminate|].
  cbn. intros [= <- <-]. exists (e1 :: E1), v1, h1, (e2 :: E2), v2, e1, e2.
  split; [reflexivity|]. split; [exact H2|]. split; [reflexivity|].
  split; [reflexivity|]. unfold py_min.
  destruct (1 <? PrimFloat.abs (e1 - e2))%float; [|reflexivity].
  vm_compute. reflexivity.
Qed.

End CouplingProperties.

Lemma coupling_strength_touches_only_its_arguments_witness :
  (forall obj,
     loop_value
       ((calculate_coupling_strength (provider := Demo.scripted [0%nat])
           (Some (0%nat, Demo.inverter)) (Some (1%nat, Demo.inverter)) None
           Scenarios.two_inverters).2 obj)
     = loop_value (Scenarios.two_inverters obj)) /\
  (forall obj,
     (forall c, Some (0%nat, Demo.inverter) <> Some (obj, c)) ->
     (forall c, Some (1%nat, Demo.inverter) <> Some (obj, c)) ->
     (calculate_coupling_strength (provider := Demo.scripted [0%nat])
        (Some (0%nat, Demo.inverter)) (Some (1%nat, Demo.inverter)) None
        Scenarios.two_inverters).2 obj
     = Scenarios.two_inverters obj) /\
  (forall e,
     (calculate_coupling_strength (provider := Demo.scripted [0%nat])
        (Some (0%nat, Demo.inverter)) (Some (1%nat, Demo.inverter)) None
        Scenarios.two_inverters).1 = Err e ->
     exists cause, e = RuntimeError "Error diagonalizing Hamiltonian" cause).
Proof.
  apply (coupling_strength_touches_only_its_arguments
           (provider := Demo.scripted [0%nat])
           (Some (0%nat, Demo.inverter)) (Some (1%nat, Demo.inverter)) None
           Scenarios.two_inverters).
  vm_compute. reflexivity.
Defined.

Lemma coupling_strength_value_witness :
  exists E1 v1 h1 E2 v2 e1 e2,
    diagonalize_object (provider := Demo.scripted [])
      (Some (0%nat, Demo.inverter)) 2 Scenarios.two_inverters
    = (Ok (E1, v1), h1) /\
    diagonalize_object (provider := Demo.scripted [])
      (Some (1%nat, Demo.inverter)) 2 h1
    = (Ok (E2, v2),
       (calculate_coupling_strength (provider := Demo.scripted [])
          (Some (0%nat, Demo.inverter)) (Some (1%nat, Demo.inverter)) None
          Scenarios.two_inverters).2) /\
    E1 !! 0%nat = Some e1 /\
    E2 !! 0%nat = Some e2 /\
    0x1.999999999999ap-5%float
    = (if 1 <? PrimFloat.abs (e1 - e2)
       then 0x1.999999999999ap-4
       else 0x1.999999999999ap-4 * PrimFloat.abs (e1 - e2))%float.
Proof.
  apply (coupling_strength_value (provider := Demo.scripted [])
           (Some (0%nat, Demo.inverter)) (Some (1%nat, Demo.inverter)) None
           Scenarios.two_inverters).
  vm_compute. reflexivity.
Defined.

(** The second diagonalization runs in the state the first one left:
    with a solver whose second call fails, one object passed twice
    makes the estimate fail where two objects give a result. *)
Example coupling_of_a_circuit_with_itself :
  (calculate_coupling_strength (provider := Demo.scripted [1%nat])
     (Some (0%nat, Demo.inverter)) (Some (0%nat, Demo.inverter)) None
     Scenarios.two_inverters).1
  = Err (RuntimeError "Error diagonalizing Hamiltonian"
           (OtherError "ArpackNoConvergence" (External "no convergence"))) /\
  (calculate_coupling_strength (provider := Demo.scripted [1%nat])
     (Some (0%nat, Demo.inverter)) (Some (1%nat, Demo.inverter)) None
     Scenarios.two_inverters).1
  = Ok 0x1.999999999999ap-5%float /\
  (calculate_coupling_strength (provider := Demo.scripted [1%nat])
     None (Some (1%nat, Demo.inverter)) None Scenarios.two_inverters).1
  = Err (RuntimeError "Error diagonalizing Hamiltonian"
           (ValueError CircuitIsNone)).
Proof. vm_compute. by repeat split. Qed.

(** ** The metrics shown *)

Lemma show_metrics_two e0 e1 :
  show_metrics [e0; e1]
  = Ok (GroundStateEnergy e0
        :: if (e1 - e0 =? 0)%float then [] else [TransitionFrequency (e1 - e0)]).
Proof.
  unfold show_metrics, calculate_gate_metrics. cbn [length Nat.ltb Nat.leb].
  cbn [getitem lookup list_lookup rbind]. unfold metric.
  repeat (rewrite ?lookup_insert_eq; rewrite ?lookup_insert_ne by done).
  cbn [rbind format_metric truthy].
  repeat (rewrite ?lookup_insert_eq; rewrite ?lookup_insert_ne by done).
  destruct (e1 - e0 =? 0)%float; cbn [negb rbind format_metric app];
    by rewrite ?app_nil_r.
Qed.

Lemma show_metrics_three e0 e1 e2 rest :
  show_metrics (e0 :: e1 :: e2 :: rest)
  = Ok (GroundStateEnergy e0
        :: (if (e1 - e0 =? 0)%float then [] else [TransitionFrequency (e1 - e0)])
        ++ (if ((e2 - e1) - (e1 - e0) =? 0)%float then []
            else [Anharmonicity ((e2 - e1) - (e1 - e0))])).
Proof.
  unfold show_metrics, calculate_gate_metrics. cbn [length Nat.ltb Nat.leb].
  cbn [getitem lookup list_lookup rbind]. unfold metric.
  repeat (rewrite ?lookup_insert_eq; rewrite ?lookup_insert_ne by done).
  cbn [rbind format_metric truthy].
  repeat (rewrite ?lookup_insert_eq; rewrite ?lookup_insert_ne by done).
  destruct (e1 - e0 =? 0)%float, ((e2 - e1) - (e1 - e0) =? 0)%float;
    reflexivity.
Qed.

(** What the front ends show of a spectrum. Fewer than two levels give
    the [ValueError] of [calculate_gate_metrics]; otherwise nothing is
    raised, the ground state energy is shown, the transition frequency
    unless it is zero, and with three levels or more the anharmonicity
    unless it is zero. *)
Theorem show_metrics_closed_form energies :
  show_metrics energies =
  match energies with
  | e0 :: e1 :: rest =>
      Ok (GroundStateEnergy e0
          :: (if (e1 - e0 =? 0)%float then []
              else [TransitionFrequency (e1 - e0)])
          ++ match rest with
             | e2 :: _ =>
                 if ((e2 - e1) - (e1 - e0) =? 0)%float then []
                 else [Anharmonicity ((e2 - e1) - (e1 - e0))]
             | [] => []
             end)
  | _ => Err (ValueError (NeedLevels 2))
  end.
Proof.
  destruct energies as [|e0 [|e1 [|e2 rest]]]; [reflexivity..| |].
  - by rewrite show_metrics_two, app_nil_r.
  - apply show_metrics_three.
Qed.

(** A spectrum with equally spaced lowest levels is shown like one with
    two levels only: its anharmonicity, being zero, is left out as if it
    had not been computed. *)
Theorem harmonic_spectrum_shown_as_two_levels e0 e1 e2 rest :
  ((e2 - e1) - (e1 - e0) =? 0)%float = true ->
  show_metrics (e0 :: e1 :: e2 :: rest) = show_metrics [e0; e1].
Proof.
  intros Hzero. rewrite show_metrics_three, show_metrics_two, Hzero.
  by rewrite app_nil_r.
Qed.

Lemma harmonic_spectrum_shown_as_two_levels_witness :
  show_metrics [1; 3; 5; 8]%float = show_metrics [1; 3]%float.
Proof.
  apply (harmonic_spectrum_shown_as_two_levels 1 3 5 [8%float]).
  reflexivity.
Defined.

Section BuildThenSweep.
Context {St : Type} {provider : Provider St} {factory : Factory St}.

(** The sweep of the command line, from the built circuit on: whichever
    of the three builders returned the circuit, and whatever world
    SQcircuit gave it, [flux_sweep] over [(0, 1)] finds a loop to drive
    in its element dictionary and returns, with [n_points] grid values
    and a table of [n_points] rows of [n_levels] slots, whatever
    SQcircuit does during the sweep. *)
Theorem built_gate_can_be_swept c w n_points n_levels :
  (exists Ej Ec flux ng, build_rql_inverter Ej Ec flux ng = Ok (c, w)) \/
  (exists Ej1 Ej2 Ec J flux1 flux2,
     build_anb_gate Ej1 Ej2 Ec J flux1 flux2 = Ok (c, w)) \/
  (exists Ej Ec El flux, build_rql_loop Ej Ec El flux = Ok (c, w)) ->
  0 <= n_points ->
  0 <= n_levels ->
  exists grid table w',
    flux_sweep (Some c) (Some (0, 1)%float) n_points n_levels w
      = (Ok (grid, table), w') /\
    length grid = Z.to_nat n_points /\
    has_shape (Z.to_nat n_points) n_levels table.
Proof.
  intros Hbuilt Hp Hl.
  assert (find_loop c = Some 0%nat) as Hloop.
  { destruct Hbuilt as [(Ej & Ec & flux & ng & H)
                       |[(Ej1 & Ej2 & Ec & J & flux1 & flux2 & H)
                        |(Ej & Ec & El & flux & H)]].
    - by apply build_rql_inverter_Ok in H as (_ & _ & _ & _ & _ & ?).
    - by apply build_anb_gate_Ok
        in H as (_ & _ & _ & _ & _ & _ & _ & _ & ?).
    - by apply build_rql_loop_Ok in H as (_ & _ & _ & _ & _ & _ & ?). }
  destruct (linspace_ok 0 1 n_points Hp) as (grid & Hgrid & Hglen & _).
  destruct (np_zeros_shape n_points n_levels) as (zeros & Hzeros & Hshape0);
    [lia..|].
  destruct (sweep_loop_ok c 0%nat n_levels grid zeros 0%nat w)
    as (table & w' & Hrun & Hshape & _).
  exists grid, table, w'. split.
  { by rewrite (flux_sweep_valid c 0%nat 0 1 n_points n_levels grid zeros), Hrun. }
  split; [exact Hglen|by apply Hshape].
Qed.

End BuildThenSweep.

Lemma built_gate_can_be_swept_witness :
  exists grid table w',
    flux_sweep (provider := Demo.scripted [0; 2]%nat) (Some Demo.inverter)
      (Some (0, 1)%float) 5 3 Demo.initial = (Ok (grid, table), w') /\
    length grid = Z.to_nat 5 /\
    has_shape (Z.to_nat 5) 3 table.
Proof.
  apply (built_gate_can_be_swept (provider := Demo.scripted [0; 2]%nat)
           (factory := Scenarios.permissive) Demo.inverter Demo.initial 5 3);
    [left; exists 10%float, 0.5%float, 0.5%float, 0%float; vm_compute; reflexivity
    | lia | lia].
Defined.
